(** * TMoji Web backend: the pack resolution pipeline of [backend/app/main.py]

    A shallow embedding of the identifier normalizer ([extract_pack_name]),
    the upstream client ([TelegramAPI]), the item mapper
    ([sticker_to_emoji_data]) and the three resolve endpoints ([get_pack],
    [get_emoji], [get_manifest]), followed by the properties the
    specification states about them.

    Python [str] values are modelled as [string] (one [ascii] per character),
    JSON numbers as [Z]. *)

From Stdlib Require Import String Ascii List ZArith Bool Lia.
Import ListNotations.

Set Warnings "-register-all".

Local Open Scope list_scope.
Local Open Scope string_scope.

(* ================================================================= *)
(** ** Regular expressions, as far as [extract_pack_name] uses them   *)
(* ================================================================= *)

Module Re.

(** The constructs that occur in the pattern of [extract_pack_name]:
    literal characters, a character set given by ranges, concatenation,
    the greedy [?], the greedy [+] over a character set and one capturing
    group.  [(?:...)] only brackets and has no node of its own. *)
Inductive regex : Type :=
| Lit (w : string)
| Cat (r1 r2 : regex)
| Opt (r : regex)
| PlusSet (ranges : list (ascii * ascii))
| Group (r : regex).

(** [[a-zA-Z0-9_]]: membership of a character in a list of ranges. *)
Definition in_range (c : ascii) (r : ascii * ascii) : bool :=
  (nat_of_ascii (fst r) <=? nat_of_ascii c)%nat &&
  (nat_of_ascii c <=? nat_of_ascii (snd r))%nat.

Definition in_set (ranges : list (ascii * ascii)) (c : ascii) : bool :=
  existsb (in_range c) ranges.

(** [strip_prefix w s] is what is left of [s] after its prefix [w], when
    [s] starts with [w]. *)
Fixpoint strip_prefix (w s : string) : option string :=
  match w with
  | EmptyString => Some s
  | String a w' =>
      match s with
      | String b s' => if Ascii.eqb a b then strip_prefix w' s' else None
      | EmptyString => None
      end
  end.

(** All the ways in which [X+] can consume a prefix of [s], the longest
    first: the order in which a backtracking matcher tries them. *)
Fixpoint char_run (ranges : list (ascii * ascii)) (s : string)
  : list (string * string) :=
  match s with
  | EmptyString => []
  | String c s' =>
      if in_set ranges c
      then map (fun tr => (String c (fst tr), snd tr)) (char_run ranges s')
             ++ [(String c EmptyString, s')]
      else []
  end%list.

(** Backtracking matching at the start of [s], as the list of successes in
    the order the matcher would find them.  A success is the content of
    group 1 so far and the text that is left. *)
Fixpoint rmatch (r : regex) (cap : option string) (s : string)
  : list (option string * string) :=
  match r with
  | Lit w =>
      match strip_prefix w s with
      | Some s' => [(cap, s')]
      | None => []
      end
  | Cat r1 r2 =>
      flat_map (fun m => rmatch r2 (fst m) (snd m)) (rmatch r1 cap s)
  | Opt r1 => (rmatch r1 cap s ++ [(cap, s)])%list
  | PlusSet ranges => map (fun tr => (cap, snd tr)) (char_run ranges s)
  | Group r1 =>
      map (fun m =>
             (Some (substring 0 (String.length s - String.length (snd m)) s),
              snd m))
          (rmatch r1 cap s)
  end.

(** [re.search]: the first success at the leftmost position that has one.
    The result is the match object, of which only group 1 is kept. *)
Fixpoint search (r : regex) (s : string) : option (option string) :=
  match rmatch r None s with
  | m :: _ => Some (fst m)
  | [] =>
      match s with
      | String _ s' => search r s'
      | EmptyString => None
      end
  end.

End Re.

(* ================================================================= *)
(** ** Identifier normalizer                                          *)
(* ================================================================= *)

(** [[a-zA-Z0-9_]] *)
Definition name_set : list (ascii * ascii) :=
  [("a", "z"); ("A", "Z"); ("0", "9"); ("_", "_")]%char.

Definition name_char (c : ascii) : bool := Re.in_set name_set c.

Definition link_prefix : string := "t.me/addemoji/".

(** [r'(?:https?://)?t\.me/addemoji/([a-zA-Z0-9_]+)'] *)
Definition pattern : Re.regex :=
  Re.Cat
    (Re.Opt (Re.Cat (Re.Lit "http") (Re.Cat (Re.Opt (Re.Lit "s")) (Re.Lit "://"))))
    (Re.Cat (Re.Lit link_prefix) (Re.Group (Re.PlusSet name_set))).

(** [extract_pack_name]: group 1 of the first match, or the argument as it
    is.  Group 1 takes part in every match of [pattern] (lemma
    [pattern_group_set]), so the inner [None] never occurs. *)
Definition extract_pack_name (url_or_name : string) : string :=
  match Re.search pattern url_or_name with
  | Some (Some g) => g
  | Some None => EmptyString
  | None => url_or_name
  end.

(* ================================================================= *)
(** ** JSON values and the Python operations the code applies to them *)
(* ================================================================= *)

(** What [response.json()] yields.  [JNull] is Python's [None]; an object
    is the list of its members in order, the first binding of a key being
    the one the dict holds. *)
Inductive json : Type :=
| JNull
| JBool (b : bool)
| JInt (z : Z)
| JStr (s : string)
| JArr (items : list json)
| JObj (members : list (string * json)).

(** Exceptions.  All of them are subclasses of [Exception]. *)
Inductive exn : Type :=
| HTTPException (status_code : Z) (detail : string)
| TransportError   (* raised by [client.post]: connection, timeout, ... *)
| DecodeError      (* raised by [response.json()] on a body that is not JSON *)
| ShapeError.      (* TypeError, AttributeError, KeyError, IndexError *)

(** The result of running a piece of the program.  [Unmodelled] marks the
    two places where this development does not follow Python: [str()] of a
    value that is not a string, and pydantic's validation of a value that
    is not of the declared field type (which, depending on the value, is
    coerced or rejected).  It is not an exception and no handler sees it. *)
Inductive outcome (A : Type) : Type :=
| Return (a : A)
| Raise (e : exn)
| Unmodelled.

Arguments Return {A} a.
Arguments Raise {A} e.
Arguments Unmodelled {A}.

Definition obind {A B : Type} (o : outcome A) (f : A -> outcome B) : outcome B :=
  match o with
  | Return a => f a
  | Raise e => Raise e
  | Unmodelled => Unmodelled
  end.

Notation "'let*' x ':=' o 'in' k" := (obind o (fun x => k))
  (at level 10, x name, o at level 100, k at level 200).

(** [bool(v)] *)
Definition truthy (v : json) : bool :=
  match v with
  | JNull => false
  | JBool b => b
  | JInt z => negb (z =? 0)%Z
  | JStr s => negb (s =? "")
  | JArr items => match items with [] => false | _ :: _ => true end
  | JObj members => match members with [] => false | _ :: _ => true end
  end.

Fixpoint lookup (k : string) (members : list (string * json)) : option json :=
  match members with
  | [] => None
  | (k', v) :: rest => if k =? k' then Some v else lookup k rest
  end.

(** [d.get(k, default)]; only a dict has [get]. *)
Definition dict_get (d : json) (k : string) (default : json) : outcome json :=
  match d with
  | JObj members =>
      Return (match lookup k members with Some v => v | None => default end)
  | _ => Raise ShapeError
  end.

(** [d[k]] for a string [k] *)
Definition getitem (d : json) (k : string) : outcome json :=
  match d with
  | JObj members =>
      match lookup k members with Some v => Return v | None => Raise ShapeError end
  | _ => Raise ShapeError
  end.

(** [v[0]] *)
Definition getitem0 (v : json) : outcome json :=
  match v with
  | JArr (x :: _) => Return x
  | JStr (String c _) => Return (JStr (String c EmptyString))
  | _ => Raise ShapeError
  end.

Fixpoint chars (s : string) : list json :=
  match s with
  | EmptyString => []
  | String c s' => JStr (String c EmptyString) :: chars s'
  end.

(** The values [for x in v] runs through. *)
Definition py_iter (v : json) : outcome (list json) :=
  match v with
  | JArr items => Return items
  | JObj members => Return (map JStr (nodup string_dec (map fst members)))
  | JStr s => Return (chars s)
  | _ => Raise ShapeError
  end.

(** [a + b] with [b] a string *)
Definition add_str (a : json) (b : string) : outcome string :=
  match a with
  | JStr s => Return (s ++ b)
  | _ => Raise ShapeError
  end.

(** [v[:n]] *)
Definition slice_to (n : nat) (v : json) : outcome json :=
  match v with
  | JStr s => Return (JStr (substring 0 n s))
  | JArr items => Return (JArr (firstn n items))
  | _ => Raise ShapeError
  end.

(** [str(v)], and [v] inside an f-string *)
Definition py_str (v : json) : outcome string :=
  match v with
  | JStr s => Return s
  | _ => Unmodelled
  end.

(** [x or ""] for the [Optional[str]] that [get_file] returns *)
Definition or_empty (x : option string) : string :=
  match x with
  | Some u => u
  | None => ""
  end.

(* ================================================================= *)
(** ** Pydantic models                                                *)
(* ================================================================= *)

Record EmojiData : Type := {
  id : string;
  short_name : string;
  emoji : option string;
  file_type : string;
  file_url : string;
  thumbnail_url : option string;
  width : Z;
  height : Z;
  is_animated : bool;
  is_video : bool;
  set_name : option string;
  needs_repainting : bool
}.

Record EmojiPack : Type := {
  name : string;
  title : string;
  sticker_type : string;
  stickers : list EmojiData;
  thumbnail : option string
}.

(** Validation of a constructor argument against the field's type. *)
Definition as_str (v : json) : outcome string :=
  match v with JStr s => Return s | _ => Unmodelled end.

Definition as_opt_str (v : json) : outcome (option string) :=
  match v with
  | JNull => Return None
  | JStr s => Return (Some s)
  | _ => Unmodelled
  end.

Definition as_int (v : json) : outcome Z :=
  match v with JInt z => Return z | _ => Unmodelled end.

Definition as_bool (v : json) : outcome bool :=
  match v with JBool b => Return b | _ => Unmodelled end.

(* ================================================================= *)
(** ** The transport and the monad of the asynchronous code           *)
(* ================================================================= *)

(** A request of [client.post(url, json=payload)]. *)
Definition request : Type := string * json.

(** What comes back: [client.post] raises, or there is a response whose
    [json()] either decodes to a value or raises. *)
Inductive reply : Type :=
| Failed
| Body (decoded : option json).

(** [httpx.AsyncClient].  The remote service and the network are folded
    into the client: its answer may depend on everything sent so far. *)
Record AsyncClient : Type := {
  respond : list request -> request -> reply
}.

(** A coroutine is run to completion at each [await], so the asynchronous
    code is sequential code over the log of the requests sent. *)
Definition M (A : Type) : Type := list request -> outcome A * list request.

Definition ret {A : Type} (a : A) : M A := fun log => (Return a, log).

Definition raise {A : Type} (e : exn) : M A := fun log => (Raise e, log).

Definition lift {A : Type} (o : outcome A) : M A := fun log => (o, log).

Definition bind {A B : Type} (m : M A) (f : A -> M B) : M B :=
  fun log =>
    match m log with
    | (Return a, log') => f a log'
    | (Raise e, log') => (Raise e, log')
    | (Unmodelled, log') => (Unmodelled, log')
    end.

Notation "'let!' x ':=' m 'in' k" := (bind m (fun x => k))
  (at level 10, x name, m at level 100, k at level 200).

(** [try: body  except Exception as e: handler] *)
Definition try_except {A : Type} (body : M A) (handler : exn -> M A) : M A :=
  fun log =>
    match body log with
    | (Raise e, log') => handler e log'
    | r => r
    end.

(** [for x in xs: ys.append(f(x))] *)
Fixpoint for_each {A B : Type} (f : A -> M B) (xs : list A) : M (list B) :=
  match xs with
  | [] => ret []
  | x :: xs' =>
      let! y := f x in
      let! ys := for_each f xs' in
      ret (y :: ys)
  end.

(** [await client.post(url, json=payload)] *)
Definition post (c : AsyncClient) (url : string) (payload : json)
  : M (option json) :=
  fun log =>
    match respond c log (url, payload) with
    | Failed => (Raise TransportError, (log ++ [(url, payload)])%list)
    | Body decoded => (Return decoded, (log ++ [(url, payload)])%list)
    end.

(** [response.json()] *)
Definition response_json (response : option json) : M json :=
  match response with
  | Some data => ret data
  | None => raise DecodeError
  end.

(* ================================================================= *)
(** ** Telegram API client                                            *)
(* ================================================================= *)

Definition TELEGRAM_API_BASE : string := "https://api.telegram.org/bot".

Record TelegramAPI : Type := {
  token : string;
  base_url : string;
  client : AsyncClient
}.

(** [TelegramAPI.__init__]; the transport the client object stands for is
    given from outside. *)
Definition new_TelegramAPI (token : string) (transport : AsyncClient)
  : TelegramAPI :=
  {| token := token;
     base_url := TELEGRAM_API_BASE ++ token;
     client := transport |}.

Definition get_sticker_set (self : TelegramAPI) (name : string) : M json :=
  let url := base_url self ++ "/getStickerSet" in
  try_except
    (let! response := post (client self) url (JObj [("name", JStr name)]) in
     let! data := response_json response in
     let! ok := lift (dict_get data "ok" JNull) in
     if truthy ok
     then lift (dict_get data "result" JNull)
     else ret JNull)
    (fun e => ret JNull).

Definition get_custom_emoji_stickers (self : TelegramAPI)
    (custom_emoji_ids : list string) : M json :=
  let url := base_url self ++ "/getCustomEmojiStickers" in
  try_except
    (let! response :=
       post (client self) url
         (JObj [("custom_emoji_ids", JArr (map JStr custom_emoji_ids))]) in
     let! data := response_json response in
     let! ok := lift (dict_get data "ok" JNull) in
     if truthy ok
     then lift (dict_get data "result" (JArr []))
     else ret (JArr []))
    (fun e => ret (JArr [])).

Definition get_file (self : TelegramAPI) (file_id : json) : M (option string) :=
  let url := base_url self ++ "/getFile" in
  try_except
    (let! response := post (client self) url (JObj [("file_id", file_id)]) in
     let! data := response_json response in
     let! ok := lift (dict_get data "ok" JNull) in
     if truthy ok
     then
       let! result := lift (getitem data "result") in
       let! file_path := lift (dict_get result "file_path" JNull) in
       if truthy file_path
       then
         let! path := lift (py_str file_path) in
         ret (Some ("https://api.telegram.org/file/bot" ++ token self
                      ++ "/" ++ path))
       else ret None
     else ret None)
    (fun e => ret None).

(** The global [telegram_api] as [lifespan] sets it: a client when
    [BOT_TOKEN] is not empty, [None] otherwise. *)
Definition lifespan (BOT_TOKEN : string) (transport : AsyncClient)
  : option TelegramAPI :=
  if negb (BOT_TOKEN =? "")
  then Some (new_TelegramAPI BOT_TOKEN transport)
  else None.

(* ================================================================= *)
(** ** Item mapper                                                    *)
(* ================================================================= *)

Definition sticker_to_emoji_data (sticker : json) (file_url : string)
  : outcome EmojiData :=
  let* animated := dict_get sticker "is_animated" JNull in
  let* file_type :=
    (if truthy animated then Return "tgs"
     else
       let* video := dict_get sticker "is_video" JNull in
       Return (if truthy video then "webm" else "png")) in
  let* file_id := dict_get sticker "file_id" (JStr "") in
  let* id_arg := dict_get sticker "custom_emoji_id" file_id in
  let* set_name_or_default := dict_get sticker "set_name" (JStr "emoji") in
  let* prefix := add_str set_name_or_default "_" in
  let* unique := dict_get sticker "file_unique_id" (JStr "") in
  let* unique8 := slice_to 8 unique in
  let* suffix := py_str unique8 in
  let short_name_arg := prefix ++ suffix in
  let* emoji_arg := dict_get sticker "emoji" JNull in
  let* width_arg := dict_get sticker "width" (JInt 512) in
  let* height_arg := dict_get sticker "height" (JInt 512) in
  let* is_animated_arg := dict_get sticker "is_animated" (JBool false) in
  let* is_video_arg := dict_get sticker "is_video" (JBool false) in
  let* set_name_arg := dict_get sticker "set_name" JNull in
  let* needs_repainting_arg := dict_get sticker "needs_repainting" (JBool false) in
  let* id_v := as_str id_arg in
  let* emoji_v := as_opt_str emoji_arg in
  let* width_v := as_int width_arg in
  let* height_v := as_int height_arg in
  let* is_animated_v := as_bool is_animated_arg in
  let* is_video_v := as_bool is_video_arg in
  let* set_name_v := as_opt_str set_name_arg in
  let* needs_repainting_v := as_bool needs_repainting_arg in
  Return {| id := id_v;
            short_name := short_name_arg;
            emoji := emoji_v;
            file_type := file_type;
            file_url := file_url;
            thumbnail_url := None;
            width := width_v;
            height := height_v;
            is_animated := is_animated_v;
            is_video := is_video_v;
            set_name := set_name_v;
            needs_repainting := needs_repainting_v |}.

(* ================================================================= *)
(** ** Endpoints                                                      *)
(* ================================================================= *)

Definition not_configured : exn :=
  HTTPException 503 "Telegram API not configured".

(** The loop shared by [get_pack] and [get_manifest]. *)
Definition process_sticker (api : TelegramAPI) (sticker : json) : M EmojiData :=
  let! file_id := lift (dict_get sticker "file_id" JNull) in
  let! located := get_file api file_id in
  let file_url := or_empty located in
  lift (sticker_to_emoji_data sticker file_url).

(** [GET /pack?url=...] *)
Definition get_pack (telegram_api : option TelegramAPI) (url : string)
  : M EmojiPack :=
  match telegram_api with
  | None => raise not_configured
  | Some api =>
      let pack_name := extract_pack_name url in
      let! sticker_set := get_sticker_set api pack_name in
      if negb (truthy sticker_set)
      then raise (HTTPException 404 ("Pack not found: " ++ pack_name))
      else
        let! listed := lift (dict_get sticker_set "stickers" (JArr [])) in
        let! records := lift (py_iter listed) in
        let! stickers := for_each (process_sticker api) records in
        let! name_arg := lift (dict_get sticker_set "name" (JStr pack_name)) in
        let! title_arg := lift (dict_get sticker_set "title" (JStr pack_name)) in
        let! type_arg := lift (dict_get sticker_set "sticker_type" (JStr "custom_emoji")) in
        let! thumb := lift (dict_get sticker_set "thumbnail" (JObj [])) in
        let! thumbnail_arg := lift (dict_get thumb "file_id" JNull) in
        let! name_v := lift (as_str name_arg) in
        let! title_v := lift (as_str title_arg) in
        let! type_v := lift (as_str type_arg) in
        let! thumbnail_v := lift (as_opt_str thumbnail_arg) in
        ret {| name := name_v;
               title := title_v;
               sticker_type := type_v;
               stickers := stickers;
               thumbnail := thumbnail_v |}
  end.

(** [GET /emoji/{emoji_id}] *)
Definition get_emoji (telegram_api : option TelegramAPI) (emoji_id : string)
  : M EmojiData :=
  match telegram_api with
  | None => raise not_configured
  | Some api =>
      let! stickers := get_custom_emoji_stickers api [emoji_id] in
      if negb (truthy stickers)
      then raise (HTTPException 404 ("Emoji not found: " ++ emoji_id))
      else
        let! sticker := lift (getitem0 stickers) in
        let! file_id := lift (dict_get sticker "file_id" JNull) in
        let! located := get_file api file_id in
        let file_url := or_empty located in
        lift (sticker_to_emoji_data sticker file_url)
  end.

(** [GET /manifest/{pack_id}] *)
Definition get_manifest (telegram_api : option TelegramAPI) (pack_id : string)
  : M EmojiPack :=
  match telegram_api with
  | None => raise not_configured
  | Some api =>
      let! sticker_set := get_sticker_set api pack_id in
      if negb (truthy sticker_set)
      then raise (HTTPException 404 ("Pack not found: " ++ pack_id))
      else
        let! listed := lift (dict_get sticker_set "stickers" (JArr [])) in
        let! records := lift (py_iter listed) in
        let! stickers := for_each (process_sticker api) records in
        let! name_arg := lift (dict_get sticker_set "name" (JStr pack_id)) in
        let! title_arg := lift (dict_get sticker_set "title" (JStr pack_id)) in
        let! type_arg := lift (dict_get sticker_set "sticker_type" (JStr "custom_emoji")) in
        let! name_v := lift (as_str name_arg) in
        let! title_v := lift (as_str title_arg) in
        let! type_v := lift (as_str type_arg) in
        ret {| name := name_v;
               title := title_v;
               sticker_type := type_v;
               stickers := stickers;
               thumbnail := None |}
  end.

(* ================================================================= *)
(** ** Vocabulary of the statements                                   *)
(* ================================================================= *)

(** *** Sharing links *)

Fixpoint all_chars (p : ascii -> bool) (s : string) : bool :=
  match s with
  | EmptyString => true
  | String c s' => p c && all_chars p s'
  end.

(** A name: one or more letters, digits and underscores. *)
Definition name_ok (n : string) : bool :=
  negb (n =? "") && all_chars name_char n.

(** The optional scheme of a sharing link. *)
Definition scheme_ok (scheme : string) : Prop :=
  scheme = "" \/ scheme = "http://" \/ scheme = "https://".

(** [s] does not go on with a name character. *)
Definition name_ends (s : string) : bool :=
  match s with
  | EmptyString => true
  | String c _ => negb (name_char c)
  end.

(** Somewhere in [s] there is ["t.me/addemoji/"] followed by a name
    character. *)
Definition has_link (s : string) : Prop :=
  exists pre c post,
    name_char c = true /\ s = pre ++ link_prefix ++ String c post.

(** The longest run of name characters at the start of [s]. *)
Fixpoint take_name (s : string) : string :=
  match s with
  | EmptyString => EmptyString
  | String c s' => if name_char c then String c (take_name s') else EmptyString
  end.

(** The name of the link that starts at the first character of [s]. *)
Definition link_at (s : string) : option string :=
  match Re.strip_prefix link_prefix s with
  | Some r =>
      match take_name r with
      | EmptyString => None
      | n => Some n
      end
  | None => None
  end.

(** The name of the leftmost link in [s]. *)
Fixpoint first_link (s : string) : option string :=
  match link_at s with
  | Some n => Some n
  | None =>
      match s with
      | EmptyString => None
      | String _ s' => first_link s'
      end
  end.

(** [t\.me/addemoji/([a-zA-Z0-9_]+)], the part of [pattern] after the
    optional scheme. *)
Definition link_body : Re.regex :=
  Re.Cat (Re.Lit link_prefix) (Re.Group (Re.PlusSet name_set)).

(** [https?://] *)
Definition scheme_re : Re.regex :=
  Re.Cat (Re.Lit "http") (Re.Cat (Re.Opt (Re.Lit "s")) (Re.Lit "://")).

(** What is left after a leading [http://] or [https://]. *)
Definition strip_scheme (s : string) : option string :=
  match Re.strip_prefix "https://" s with
  | Some r => Some r
  | None => Re.strip_prefix "http://" s
  end.

(** *** Upstream records

    The shape the Bot API documents for the records the code reads: a
    member, where it is there, has the type of its field. *)

Definition is_str (v : json) : bool :=
  match v with JStr _ => true | _ => false end.

Definition is_opt_str (v : json) : bool :=
  match v with JStr _ | JNull => true | _ => false end.

Definition is_int (v : json) : bool :=
  match v with JInt _ => true | _ => false end.

Definition is_bool (v : json) : bool :=
  match v with JBool _ => true | _ => false end.

Definition field_ok (check : json -> bool) (k : string)
    (members : list (string * json)) : bool :=
  match lookup k members with
  | Some v => check v
  | None => true
  end.

Definition sticker_ok (sticker : json) : bool :=
  match sticker with
  | JObj m =>
      match lookup "custom_emoji_id" m with
      | Some v => is_str v
      | None => field_ok is_str "file_id" m
      end
      && field_ok is_str "set_name" m
      && field_ok is_str "file_unique_id" m
      && field_ok is_opt_str "emoji" m
      && field_ok is_int "width" m
      && field_ok is_int "height" m
      && field_ok is_bool "is_animated" m
      && field_ok is_bool "is_video" m
      && field_ok is_bool "needs_repainting" m
  | _ => false
  end.

(** Reading a member of a record, with the value to use when it is not
    there. *)
Definition str_field (k default : string) (m : list (string * json)) : string :=
  match lookup k m with Some (JStr s) => s | _ => default end.

Definition opt_str_field (k : string) (m : list (string * json)) : option string :=
  match lookup k m with Some (JStr s) => Some s | _ => None end.

Definition int_field (k : string) (default : Z) (m : list (string * json)) : Z :=
  match lookup k m with Some (JInt z) => z | _ => default end.

Definition flag (k : string) (m : list (string * json)) : bool :=
  match lookup k m with Some (JBool b) => b | _ => false end.

(** The format rule of the data model: animated first, then video. *)
Definition format_of (animated video : bool) : string :=
  if animated then "tgs" else if video then "webm" else "png".

(** The item of a well-formed sticker record, field by field. *)
Definition item_of (m : list (string * json)) (url : string) : EmojiData :=
  {| id := match lookup "custom_emoji_id" m with
           | Some (JStr s) => s
           | Some _ => ""
           | None => str_field "file_id" "" m
           end;
     short_name := str_field "set_name" "emoji" m ++ "_"
                     ++ substring 0 8 (str_field "file_unique_id" "" m);
     emoji := opt_str_field "emoji" m;
     file_type := format_of (flag "is_animated" m) (flag "is_video" m);
     file_url := url;
     thumbnail_url := None;
     width := int_field "width" 512 m;
     height := int_field "height" 512 m;
     is_animated := flag "is_animated" m;
     is_video := flag "is_video" m;
     set_name := opt_str_field "set_name" m;
     needs_repainting := flag "needs_repainting" m |}.

(** The short name as the specification words it: the pack name (or
    ["emoji"]) followed at once by the first 8 characters of the unique
    file identifier. *)
Definition short_name_as_specified (m : list (string * json)) : string :=
  str_field "set_name" "emoji" m
    ++ substring 0 8 (str_field "file_unique_id" "" m).

(** A record on which the two wordings of the short name differ. *)
Definition sample_sticker_members : list (string * json) :=
  [("file_id", JStr "CAACAgIAAxUAAWZ");
   ("file_unique_id", JStr "AgADBQADabcdef");
   ("set_name", JStr "pack");
   ("is_animated", JBool false);
   ("is_video", JBool true)].

(** *** Replies of the service *)

(** The service reports success: the reply decodes to an object whose
    [ok] is true. *)
Definition reply_ok (r : reply) : bool :=
  match r with
  | Body (Some (JObj m)) =>
      match lookup "ok" m with
      | Some v => truthy v
      | None => false
      end
  | _ => false
  end.

(** The [result] member of the reply. *)
Definition reply_result (r : reply) : option json :=
  match r with
  | Body (Some (JObj m)) => lookup "result" m
  | _ => None
  end.

(** The file-path token of a [getFile] reply. *)
Definition reply_file_path (r : reply) : option json :=
  match reply_result r with
  | Some (JObj result) => lookup "file_path" result
  | _ => None
  end.

(** The requests the three operations send. *)
Definition sticker_set_request (api : TelegramAPI) (name : string) : request :=
  (base_url api ++ "/getStickerSet", JObj [("name", JStr name)]).

Definition custom_emoji_request (api : TelegramAPI) (ids : list string)
  : request :=
  (base_url api ++ "/getCustomEmojiStickers",
   JObj [("custom_emoji_ids", JArr (map JStr ids))]).

Definition file_request (api : TelegramAPI) (file_id : json) : request :=
  (base_url api ++ "/getFile", JObj [("file_id", file_id)]).

(** The download URL of a path token. *)
Definition download_url (api : TelegramAPI) (path : string) : string :=
  "https://api.telegram.org/file/bot" ++ token api ++ "/" ++ path.

(** The thumbnail member of a pack record is an object whose [file_id],
    where it is there, is a string. *)
Definition thumbnail_ok (m : list (string * json)) : bool :=
  match lookup "thumbnail" m with
  | Some (JObj t) => field_ok is_opt_str "file_id" t
  | Some _ => false
  | None => true
  end.

(** The pack record of [getStickerSet]: a list of sticker records, the
    three strings, and the thumbnail object. *)
Definition pack_ok (v : json) : bool :=
  match v with
  | JObj m =>
      match lookup "stickers" m with
      | Some (JArr l) => forallb sticker_ok l
      | Some _ => false
      | None => true
      end
      && field_ok is_str "name" m
      && field_ok is_str "title" m
      && field_ok is_str "sticker_type" m
      && thumbnail_ok m
  | _ => false
  end.

(** The sticker records of a pack record, in upstream order. *)
Definition stickers_of (m : list (string * json)) : list json :=
  match lookup "stickers" m with
  | Some (JArr l) => l
  | _ => []
  end.

(** The file identifier the code passes on for a sticker record. *)
Definition file_id_of (sticker : json) : json :=
  match sticker with
  | JObj m => match lookup "file_id" m with Some v => v | None => JNull end
  | _ => JNull
  end.

(** Replies that, when they report success, carry a result of the
    documented shape. *)
Definition set_reply_ok (r : reply) : bool :=
  if reply_ok r
  then match reply_result r with
       | Some v => negb (truthy v) || pack_ok v
       | None => true
       end
  else true.

Definition emoji_reply_ok (r : reply) : bool :=
  if reply_ok r
  then match reply_result r with
       | Some (JArr l) => forallb sticker_ok l
       | Some v => negb (truthy v)
       | None => true
       end
  else true.

Definition file_reply_ok (r : reply) : bool :=
  if reply_ok r
  then match reply_file_path r with
       | Some v => negb (truthy v) || is_str v
       | None => true
       end
  else true.

Definition files_conform (api : TelegramAPI) : Prop :=
  forall log file_id,
    file_reply_ok (respond (client api) log (file_request api file_id)) = true.

Definition conforming (api : TelegramAPI) : Prop :=
  (forall log name,
      set_reply_ok (respond (client api) log (sticker_set_request api name))
      = true) /\
  (forall log ids,
      emoji_reply_ok (respond (client api) log (custom_emoji_request api ids))
      = true) /\
  files_conform api.

(** The item at a position of the output stands for the record at that
    position: it is the mapping of the record and of what [get_file] gave
    for the record's file identifier, the empty string when that was
    [None]. *)
Definition maps_to (api : TelegramAPI) (sticker : json) (item : EmojiData)
  : Prop :=
  exists log located,
    fst (get_file api (file_id_of sticker) log) = Return located /\
    sticker_to_emoji_data sticker (or_empty located) = Return item /\
    file_url item = or_empty located.

(** A transport whose every reply is a successful [getFile] reply. *)
Definition sample_file_client : AsyncClient :=
  {| respond := fun _ _ =>
       Body (Some (JObj [("ok", JBool true);
                         ("result", JObj [("file_id", JStr "F1");
                                          ("file_path", JStr "stickers/f1.webm")])])) |}.

(** A transport for a pack of two stickers: [getStickerSet] and
    [getCustomEmojiStickers] succeed, [getFile] succeeds when it is the
    second request and is refused otherwise. *)
Definition sample_pack : json :=
  JObj [("name", JStr "demo_pack");
        ("title", JStr "Demo");
        ("sticker_type", JStr "custom_emoji");
        ("thumbnail", JObj [("file_id", JStr "T1")]);
        ("stickers",
         JArr [JObj [("file_id", JStr "F1");
                     ("file_unique_id", JStr "U1");
                     ("custom_emoji_id", JStr "5368324170671202286");
                     ("is_animated", JBool true)];
               JObj [("file_id", JStr "F2");
                     ("file_unique_id", JStr "U2");
                     ("is_video", JBool true)]])].

Definition ends_with (suffix s : string) : bool :=
  (String.length suffix <=? String.length s)%nat &&
  (substring (String.length s - String.length suffix)
             (String.length suffix) s =? suffix).

Definition sample_respond (log : list request) (req : request) : reply :=
  if ends_with "/getStickerSet" (fst req) then
    Body (Some (JObj [("ok", JBool true); ("result", sample_pack)]))
  else if ends_with "/getCustomEmojiStickers" (fst req) then
    Body (Some (JObj [("ok", JBool true);
                      ("result", JArr [JObj [("file_id", JStr "F1");
                                             ("custom_emoji_id", JStr "77")]])]))
  else
    match log with
    | [_] =>
        Body (Some (JObj [("ok", JBool true);
                          ("result", JObj [("file_path", JStr "stickers/f1.tgs")])]))
    | _ =>
        Body (Some (JObj [("ok", JBool false);
                          ("description", JStr "Bad Request")]))
    end.

Definition sample_client : AsyncClient := {| respond := sample_respond |}.

Definition sample_api : TelegramAPI := new_TelegramAPI "123:abc" sample_client.

(** A transport on which every call fails. *)
Definition dead_client : AsyncClient := {| respond := fun _ _ => Failed |}.

(** *** Outcomes *)

(** [o] raises nothing but [ShapeError]. *)
Definition shape_only {A : Type} (o : outcome A) : Prop :=
  forall e, o = Raise e -> e = ShapeError.

(** Whatever [m] raises satisfies [P]. *)
Definition raises_in {A : Type} (P : exn -> Prop) (m : M A) : Prop :=
  forall log e log', m log = (Raise e, log') -> P e.

(** [log'] is [log] with further requests. *)
Definition extends (log log' : list request) : Prop :=
  exists more, log' = (log ++ more)%list.

(** [m] only adds requests to the log. *)
Definition grows {A : Type} (m : M A) : Prop :=
  forall log, extends log (snd (m log)).

(** The two errors of the endpoints, and the faults of the upstream. *)
Definition is_not_found (e : exn) : bool :=
  match e with
  | HTTPException status _ => (status =? 404)%Z
  | _ => false
  end.

Definition upstream_fault (e : exn) : bool :=
  match e with
  | TransportError | DecodeError => true
  | _ => false
  end.

(** What an endpoint lets its caller see: a result, [NotConfigured] or
    [NotFound]. *)
Definition surfaced {A : Type} (o : outcome A) : Prop :=
  match o with
  | Return _ => True
  | Raise e => e = not_configured \/ is_not_found e = true
  | Unmodelled => False
  end.

(** The pack without its thumbnail. *)
Definition without_thumbnail (p : EmojiPack) : EmojiPack :=
  {| name := name p;
     title := title p;
     sticker_type := sticker_type p;
     stickers := stickers p;
     thumbnail := None |}.

(* ================================================================= *)
(** ** Status endpoints                                               *)
(* ================================================================= *)

(** [telegram_api is not None] *)
Definition is_connected (telegram_api : option TelegramAPI) : bool :=
  match telegram_api with
  | Some _ => true
  | None => false
  end.

(** [GET /] *)
Definition root (telegram_api : option TelegramAPI) : json :=
  JObj [("service", JStr "TMoji Web API");
        ("version", JStr "1.0.0");
        ("status", JStr "active");
        ("telegram_connected", JBool (is_connected telegram_api))].

(** [GET /health] *)
Definition health (telegram_api : option TelegramAPI) : json :=
  JObj [("status", JStr "healthy");
        ("telegram_api", JBool (is_connected telegram_api))].

(* ================================================================= *)
(** ** File download                                                  *)
(* ================================================================= *)

(** [s.rstrip('/')] *)
Fixpoint rstrip_sep (s : string) : string :=
  match s with
  | EmptyString => EmptyString
  | String c s' =>
      let r := rstrip_sep s' in
      if (r =? "") && Ascii.eqb c "/" then EmptyString else String c r
  end.

(** [p[:p.rfind('/') + 1]]: [p] up to and with its last slash. *)
Fixpoint head_of_path (p : string) : string :=
  match p with
  | EmptyString => EmptyString
  | String c p' =>
      let h := head_of_path p' in
      if h =? ""
      then (if Ascii.eqb c "/" then "/" else EmptyString)
      else String c h
  end.

(** [os.path.dirname] of [posixpath]. *)
Definition dirname (p : string) : string :=
  let head := head_of_path p in
  if negb (head =? "") && negb (all_chars (Ascii.eqb "/") head)
  then rstrip_sep head
  else head.

(** What [client.stream("GET", url)] gives: it raises, or there is a
    response with a status and a body that [aiter_bytes] hands out in
    chunks, to the end or until it raises. *)
Inductive stream_reply : Type :=
| StreamFailed
| Stream (status_code : Z) (chunks : list string) (complete : bool).

(** The files on disk: path and content, the first binding of a path
    being the file.  A file is known by the string it was opened with:
    two spellings of one path are not identified. *)
Definition files : Type := list (string * string).

Fixpoint read_file (path : string) (fs : files) : option string :=
  match fs with
  | [] => None
  | (p, content) :: rest => if path =? p then Some content else read_file path rest
  end.

(** What the operating system allows: [os.makedirs(d, exist_ok=True)] and
    [open(path, "wb")] succeed or raise [OSError]. *)
Record OS : Type := {
  can_makedirs : string -> bool;
  can_open : string -> bool
}.

Inductive download_error : Type :=
| StreamError
| OSError.

(** [os.makedirs(d, exist_ok=True)]; the empty path always raises. *)
Definition makedirs (os : OS) (d : string) : option download_error :=
  if (d =? "") || negb (can_makedirs os d) then Some OSError else None.

(** [f.write(chunk)] for each chunk, on the file opened at [path]. *)
Fixpoint write_chunks (path : string) (chunks : list string) (fs : files)
  : files :=
  match chunks with
  | [] => fs
  | chunk :: rest =>
      let written := match read_file path fs with Some c => c | None => "" end in
      write_chunks path rest ((path, written ++ chunk) :: fs)
  end.

(** The body of the [try] of [download_file]. *)
Definition download_body (stream : string -> string -> stream_reply) (os : OS)
    (file_url local_path : string) (fs : files)
  : (bool + download_error) * files :=
  match stream "GET" file_url with
  | StreamFailed => (inr StreamError, fs)
  | Stream status_code chunks complete =>
      if (status_code =? 200)%Z
      then
        match makedirs os (dirname local_path) with
        | Some e => (inr e, fs)
        | None =>
            if can_open os local_path
            then
              let opened := (local_path, EmptyString) :: fs in
              let written := write_chunks local_path chunks opened in
              if complete then (inl true, written)
              else (inr StreamError, written)
            else (inr OSError, fs)
        end
      else (inl false, fs)
  end.

(** [TelegramAPI.download_file].  The GET side of the client and the
    operating system are given from outside. *)
Definition download_file (self : TelegramAPI)
    (stream : string -> string -> stream_reply) (os : OS)
    (file_url local_path : string) (fs : files) : bool * files :=
  match download_body stream os file_url local_path fs with
  | (inl result, fs') => (result, fs')
  | (inr e, fs') => (false, fs')
  end.

(* ================================================================= *)
(** ** Build script: what goes into the archive                       *)
(* ================================================================= *)

Module Build.

Definition EXCLUDE : list string :=
  ["__pycache__"; "*.pyc"; "*.pyo"; "*.pyd"; ".git"; ".gitignore";
   "node_modules"; ".DS_Store"; "*.log"; "dist/"; "build/"; "*.zip"].

(** [s.startswith(w)] *)
Definition starts_with (w s : string) : bool :=
  match Re.strip_prefix w s with
  | Some _ => true
  | None => false
  end.

(** [w in s] for strings *)
Fixpoint contains (w s : string) : bool :=
  starts_with w s ||
  match s with
  | EmptyString => false
  | String _ s' => contains w s'
  end.

(** [s.split('/')] *)
Fixpoint split_sep (s : string) : list string :=
  match s with
  | EmptyString => [EmptyString]
  | String c s' =>
      if Ascii.eqb c "/"
      then EmptyString :: split_sep s'
      else match split_sep s' with
           | h :: t => String c h :: t
           | [] => [String c EmptyString]
           end
  end.

(** [s[1:]] *)
Definition tail (s : string) : string :=
  match s with
  | EmptyString => EmptyString
  | String _ s' => s'
  end.

(** One round of the loop of [should_exclude]. *)
Definition pattern_excludes (path_str pattern : string) : bool :=
  if ends_with "/" pattern
  then existsb (String.eqb (rstrip_sep pattern)) (split_sep path_str)
  else if starts_with "*" pattern
       then ends_with (tail pattern) path_str
       else contains pattern path_str.

Definition should_exclude_in (patterns : list string) (path_str : string)
  : bool :=
  existsb (pattern_excludes path_str) patterns.

Definition should_exclude (path_str : string) : bool :=
  should_exclude_in EXCLUDE path_str.

(** A directory tree as [os.walk] reads it: the entries of a directory in
    the order it lists them. *)
Inductive entry : Type :=
| File (name : string)
| Dir (name : string) (content : list entry).

(** [Path(root) / name] *)
Definition join (root name : string) : string := root ++ "/" ++ name.

(** The archive names [create_zip] writes for the directory at [root]:
    its files that are not excluded, then the same for each of its
    directories that is not excluded, in order. *)
Fixpoint archived (root : string) (tree : entry) : list string :=
  match tree with
  | File _ => []
  | Dir _ content =>
      (flat_map (fun e => match e with
                          | File f =>
                              if should_exclude (join root f) then []
                              else [join root f]
                          | Dir _ _ => []
                          end) content
       ++
       flat_map (fun e => match e with
                          | Dir d _ =>
                              if should_exclude (join root d) then []
                              else archived (join root d) e
                          | File _ => []
                          end) content)%list
  end.

(** [create_zip] on the content of [OUTPUT_DIR], which is [dist]. *)
Definition create_zip (content : list entry) : list string :=
  archived "dist" (Dir "dist" content).

End Build.

(** *** Requests *)

(** [m] only adds requests, and only requests of [P]. *)
Definition sends {A : Type} (P : request -> Prop) (m : M A) : Prop :=
  forall log, exists more,
    snd (m log) = (log ++ more)%list /\ Forall P more.

(** The three methods of the Bot API that the client calls. *)
Definition bot_method (api : TelegramAPI) (req : request) : Prop :=
  fst req = base_url api ++ "/getStickerSet" \/
  fst req = base_url api ++ "/getCustomEmojiStickers" \/
  fst req = base_url api ++ "/getFile".

(** The [getFile] requests for a list of sticker records. *)
Definition file_requests (api : TelegramAPI) (records : list json)
  : list request :=
  map (fun sticker => file_request api (file_id_of sticker)) records.

(** The log at which the loop over [records], started at [log1], makes
    its call for the record at position [i]: the requests for the
    records before it have been sent. *)
Definition call_log (api : TelegramAPI) (log1 : list request)
    (records : list json) (i : nat) : list request :=
  (log1 ++ file_requests api (firstn i records))%list.

(** The pack record as far as [get_manifest] reads it: [pack_ok] but for
    the thumbnail. *)
Definition manifest_ok (v : json) : bool :=
  match v with
  | JObj m =>
      match lookup "stickers" m with
      | Some (JArr l) => forallb sticker_ok l
      | Some _ => false
      | None => true
      end
      && field_ok is_str "name" m
      && field_ok is_str "title" m
      && field_ok is_str "sticker_type" m
  | _ => false
  end.

(** A record whose [set_name] is there and is not a string, as with an
    explicit [null]. *)
Definition bad_set_name (sticker : json) : bool :=
  match sticker with
  | JObj m =>
      match lookup "set_name" m with
      | Some v => negb (is_str v)
      | None => false
      end
  | _ => false
  end.

(** Values [for x in v] cannot run through. *)
Definition not_iterable (v : json) : bool :=
  match v with
  | JNull | JBool _ | JInt _ => true
  | _ => false
  end.

(** The invariant of the data model on an item: its format is the one of
    its own two flags, and it has no thumbnail. *)
Definition item_invariant (item : EmojiData) : Prop :=
  file_type item = format_of (is_animated item) (is_video item) /\
  thumbnail_url item = None.

(** The URL of an item is empty or a download URL of the client, with the
    client's token in it. *)
Definition url_invariant (api : TelegramAPI) (item : EmojiData) : Prop :=
  file_url item = "" \/
  exists path,
    file_url item
    = "https://api.telegram.org/file/bot" ++ token api ++ "/" ++ path.

(** A transport that answers [getStickerSet] and
    [getCustomEmojiStickers] with the given result and finds every
    file. *)
Definition scripted_client (result : json) : AsyncClient :=
  {| respond := fun _ req =>
       if ends_with "/getFile" (fst req)
       then Body (Some (JObj [("ok", JBool true);
                              ("result", JObj [("file_path", JStr "documents/file.png")])]))
       else Body (Some (JObj [("ok", JBool true); ("result", result)])) |}.

Definition scripted_api (result : json) : TelegramAPI :=
  new_TelegramAPI "123:abc" (scripted_client result).

(** A pack whose second record has a [null] pack name. *)
Definition pack_with_null_set_name : list (string * json) :=
  [("name", JStr "demo_pack");
   ("stickers",
    JArr [JObj [("file_id", JStr "F1"); ("file_unique_id", JStr "U1")];
          JObj [("file_id", JStr "F2"); ("set_name", JNull)];
          JObj [("file_id", JStr "F3")]])].

(** A pack whose [stickers] member is [null]. *)
Definition pack_with_null_stickers : list (string * json) :=
  [("name", JStr "demo_pack"); ("stickers", JNull)].

(** A pack whose [thumbnail] member is [null]. *)
Definition pack_with_null_thumbnail : list (string * json) :=
  [("name", JStr "demo_pack");
   ("thumbnail", JNull);
   ("stickers", JArr [JObj [("file_id", JStr "F1")]])].

(** A pack without title and without stickers. *)
Definition pack_with_name_only : list (string * json) :=
  [("name", JStr "Demo_Pack")].

Definition is_obj (v : json) : bool :=
  match v with JObj _ => true | _ => false end.

(** *** Downloads and paths *)

(** The bytes of a body: its chunks one after the other. *)
Definition bytes_of (chunks : list string) : string :=
  fold_right append EmptyString chunks.

(** A path with no directory part. *)
Definition no_slash (p : string) : bool :=
  all_chars (fun c => negb (Ascii.eqb c "/")) p.

(** A transport side and an operating system that let a download
    through. *)
Definition sample_stream (chunks : list string) (complete : bool)
  : string -> string -> stream_reply :=
  fun _ _ => Stream 200 chunks complete.

Definition permissive_os : OS :=
  {| can_makedirs := fun _ => true; can_open := fun _ => true |}.

(* ################################################################# *)
(** * Properties                                                      *)
(* ################################################################# *)

(* ================================================================= *)
(** ** Strings and prefixes                                           *)
(* ================================================================= *)

Lemma append_nil_r (s : string) : s ++ "" = s.
Proof. induction s as [|c s IH]; simpl; [reflexivity | now rewrite IH]. Qed.

Lemma append_assoc (a b c : string) : (a ++ b) ++ c = a ++ (b ++ c).
Proof. induction a as [|x a IH]; simpl; [reflexivity | now rewrite IH]. Qed.

Lemma length_append (a b : string) :
  String.length (a ++ b) = (String.length a + String.length b)%nat.
Proof. induction a as [|x a IH]; simpl; [reflexivity | now rewrite IH]. Qed.

Lemma strip_prefix_sound (w s r : string) :
  Re.strip_prefix w s = Some r -> s = w ++ r.
Proof.
  revert s; induction w as [|a w IH]; intros s H; simpl in *.
  - now inversion H.
  - destruct s as [|b s]; [discriminate|].
    destruct (Ascii.eqb a b) eqn:E; [|discriminate].
    apply Ascii.eqb_eq in E; subst b. now rewrite (IH _ H).
Qed.

Lemma strip_prefix_complete (w r : string) :
  Re.strip_prefix w (w ++ r) = Some r.
Proof.
  induction w as [|a w IH]; simpl; [reflexivity|].
  now rewrite Ascii.eqb_refl.
Qed.

Lemma strip_prefix_append (w1 w2 s : string) :
  Re.strip_prefix (w1 ++ w2) s =
  match Re.strip_prefix w1 s with
  | Some r => Re.strip_prefix w2 r
  | None => None
  end.
Proof.
  revert s; induction w1 as [|a w1 IH]; intros s; simpl; [reflexivity|].
  destruct s as [|b s]; [reflexivity|].
  destruct (Ascii.eqb a b); [apply IH | reflexivity].
Qed.

Lemma substring_prefix (t r : string) :
  substring 0 (String.length (t ++ r) - String.length r) (t ++ r) = t.
Proof.
  rewrite length_append.
  replace (String.length t + String.length r - String.length r)%nat
    with (String.length t) by lia.
  induction t as [|c t IH]; simpl.
  - destruct r; reflexivity.
  - now rewrite IH.
Qed.

(* ================================================================= *)
(** ** The matcher on the pattern of [extract_pack_name]              *)
(* ================================================================= *)

Lemma take_name_split (s : string) :
  exists r, s = take_name s ++ r /\ name_ends r = true.
Proof.
  induction s as [|c s [r [E H]]]; simpl.
  - exists ""; split; reflexivity.
  - destruct (name_char c) eqn:C.
    + exists r; split; [simpl; now rewrite <- E | exact H].
    + exists (String c s); split; [reflexivity | simpl; now rewrite C].
Qed.

Lemma take_name_all (s : string) : all_chars name_char (take_name s) = true.
Proof.
  induction s as [|c s IH]; simpl; [reflexivity|].
  destruct (name_char c) eqn:C; simpl; [now rewrite C | reflexivity].
Qed.

Lemma take_name_of_name (n r : string) :
  all_chars name_char n = true -> name_ends r = true ->
  take_name (n ++ r) = n.
Proof.
  induction n as [|c n IH]; simpl; intros Hn Hr.
  - destruct r as [|d r]; simpl in *; [reflexivity|].
    apply negb_true_iff in Hr. now rewrite Hr.
  - apply andb_true_iff in Hn as [Hc Hn]. unfold name_char in Hc |- *.
    rewrite Hc. now rewrite IH.
Qed.

(** The longest run comes first among the successes of [[...]+]. *)
Lemma char_run_head (s : string) :
  (take_name s = "" -> Re.char_run name_set s = []) /\
  (take_name s <> "" ->
   exists r l, s = take_name s ++ r /\
               Re.char_run name_set s = (take_name s, r) :: l).
Proof.
  induction s as [|c s [IH0 IH1]]; cbn [take_name Re.char_run].
  - split; [reflexivity | intros H; now elim H].
  - unfold name_char. destruct (Re.in_set name_set c) eqn:C.
    + split; [discriminate | intros _].
      destruct (take_name s) as [|d n] eqn:T.
      * rewrite IH0 by reflexivity. exists s, []. split; reflexivity.
      * destruct IH1 as [r [l [E R]]]; [discriminate|]. rewrite R.
        exists r. eexists. split; [|reflexivity].
        change (String c (String d n) ++ r) with (String c (String d n ++ r)).
        now rewrite <- E.
    + split; [reflexivity | intros H; now elim H].
Qed.

Lemma link_body_head (cap : option string) (s : string) :
  match link_at s with
  | Some n => exists r l, Re.rmatch link_body cap s = (Some n, r) :: l
  | None => Re.rmatch link_body cap s = []
  end.
Proof.
  unfold link_at, link_body.
  cbn [Re.rmatch].
  destruct (Re.strip_prefix link_prefix s) as [r0|] eqn:P; [|reflexivity].
  cbn [flat_map fst snd]. rewrite app_nil_r, !map_map. cbn [snd].
  destruct (char_run_head r0) as [H0 H1].
  destruct (take_name r0) as [|d n] eqn:T.
  - rewrite H0 by reflexivity. reflexivity.
  - destruct H1 as [r [l [E R]]]; [discriminate|]. rewrite R. cbn [map snd].
    exists r. eexists. f_equal. f_equal. f_equal.
    rewrite E at 1 2. apply substring_prefix.
Qed.

Lemma scheme_match (cap : option string) (s : string) :
  Re.rmatch scheme_re cap s =
  match strip_scheme s with
  | Some r => [(cap, r)]
  | None => []
  end.
Proof.
  unfold strip_scheme, scheme_re.
  change "https://" with ("http" ++ "s://").
  change "http://" with ("http" ++ "://").
  rewrite !strip_prefix_append.
  cbn [Re.rmatch].
  destruct (Re.strip_prefix "http" s) as [r|]; [|reflexivity].
  cbn [flat_map fst snd]. rewrite app_nil_r.
  destruct r as [|a r]; [reflexivity|].
  cbn [Re.strip_prefix].
  destruct (Ascii.eqb "s" a) eqn:Es.
  - apply Ascii.eqb_eq in Es; subst a.
    change (Ascii.eqb ":" "s") with false.
    cbn [flat_map app fst snd Re.rmatch Re.strip_prefix]. rewrite !app_nil_r.
    destruct r as [|b r]; [reflexivity|].
    destruct (Ascii.eqb ":" b); [|reflexivity].
    destruct r as [|c r]; [reflexivity|].
    destruct (Ascii.eqb "/" c); [|reflexivity].
    destruct r as [|d r]; [reflexivity|].
    destruct (Ascii.eqb "/" d); reflexivity.
  - cbn [flat_map app fst snd Re.rmatch Re.strip_prefix]. rewrite !app_nil_r.
    destruct (Ascii.eqb ":" a); [|reflexivity].
    destruct r as [|c r]; [reflexivity|].
    destruct (Ascii.eqb "/" c); [|reflexivity].
    destruct r as [|d r]; [reflexivity|].
    destruct (Ascii.eqb "/" d); reflexivity.
Qed.

Lemma pattern_match (s : string) :
  Re.rmatch pattern None s =
  (match strip_scheme s with
   | Some r => Re.rmatch link_body None r
   | None => []
   end ++ Re.rmatch link_body None s)%list.
Proof.
  change pattern with (Re.Cat (Re.Opt scheme_re) link_body).
  cbn [Re.rmatch]. rewrite scheme_match.
  destruct (strip_scheme s) as [r|]; cbn [flat_map app fst snd];
    now rewrite !app_nil_r.
Qed.

Lemma link_at_no_scheme (s : string) :
  link_at s <> None -> strip_scheme s = None.
Proof.
  unfold link_at, strip_scheme. destruct s as [|a s]; [reflexivity|].
  cbn [Re.strip_prefix link_prefix].
  destruct (Ascii.eqb "t" a) eqn:E; [|intros H; now elim H].
  apply Ascii.eqb_eq in E; subst a. reflexivity.
Qed.

Lemma link_at_skip (c : ascii) (s : string) :
  link_at (String c s) = None -> first_link (String c s) = first_link s.
Proof. intros H. cbn [first_link]. now rewrite H. Qed.

Lemma first_link_after_scheme (s r : string) :
  strip_scheme s = Some r -> first_link s = first_link r.
Proof.
  unfold strip_scheme. intros H.
  destruct (Re.strip_prefix "https://" s) as [r1|] eqn:P.
  - inversion H; subst r1. apply strip_prefix_sound in P. subst s.
    cbn [append]. repeat (rewrite link_at_skip by reflexivity). reflexivity.
  - apply strip_prefix_sound in H. subst s.
    cbn [append]. repeat (rewrite link_at_skip by reflexivity). reflexivity.
Qed.

(** [re.search] with the pattern finds the leftmost link. *)
Lemma search_first_link (s : string) :
  Re.search pattern s = option_map Some (first_link s).
Proof.
  induction s as [|c s IH].
  - reflexivity.
  - cbn [Re.search]. rewrite pattern_match.
    destruct (link_at (String c s)) as [n|] eqn:L.
    + rewrite link_at_no_scheme by (rewrite L; discriminate).
      pose proof (link_body_head None (String c s)) as H. rewrite L in H.
      destruct H as [r [l H]]. rewrite H. cbn [app fst first_link].
      rewrite L. reflexivity.
    + pose proof (link_body_head None (String c s)) as H. rewrite L in H.
      rewrite H, app_nil_r.
      destruct (strip_scheme (String c s)) as [r|] eqn:S.
      * rewrite (first_link_after_scheme _ _ S).
        pose proof (link_body_head None r) as Hr.
        destruct (link_at r) as [n|] eqn:Lr.
        -- destruct Hr as [r' [l Hr]]. rewrite Hr. cbn [fst].
           destruct r; cbn [first_link]; now rewrite Lr.
        -- rewrite Hr. rewrite IH.
           rewrite <- (first_link_after_scheme _ _ S).
           now rewrite link_at_skip.
      * rewrite IH. now rewrite link_at_skip.
Qed.

(** Group 1 takes part in every match of the pattern. *)
Lemma pattern_group_set (s : string) (m : option string) :
  Re.search pattern s = Some m -> m <> None.
Proof.
  rewrite search_first_link. destruct (first_link s); [|discriminate].
  intros H; inversion H; discriminate.
Qed.

Lemma extract_first_link (s : string) :
  extract_pack_name s =
  match first_link s with
  | Some n => n
  | None => s
  end.
Proof.
  unfold extract_pack_name. rewrite search_first_link.
  destruct (first_link s); reflexivity.
Qed.

(* ================================================================= *)
(** ** Links, declaratively                                           *)
(* ================================================================= *)

Lemma link_at_some (s n : string) :
  link_at s = Some n ->
  exists post,
    s = link_prefix ++ n ++ post /\ name_ok n = true /\ name_ends post = true.
Proof.
  unfold link_at. destruct (Re.strip_prefix link_prefix s) as [r|] eqn:P;
    [|discriminate].
  apply strip_prefix_sound in P.
  destruct (take_name_split r) as [post [E H]].
  pose proof (take_name_all r) as A.
  destruct (take_name r) as [|d m] eqn:T; [discriminate|].
  intros X; inversion X; subst n. exists post. repeat split.
  - now rewrite <- E.
  - unfold name_ok. now rewrite A.
  - exact H.
Qed.

Lemma link_at_of_link (c : ascii) (post : string) :
  name_char c = true -> link_at (link_prefix ++ String c post) <> None.
Proof.
  intros C. unfold link_at. rewrite strip_prefix_complete.
  cbn [take_name]. rewrite C. discriminate.
Qed.

Lemma link_at_of_name (n post : string) :
  name_ok n = true -> name_ends post = true ->
  link_at (link_prefix ++ n ++ post) = Some n.
Proof.
  unfold name_ok. intros H E. apply andb_true_iff in H as [N A].
  unfold link_at. rewrite strip_prefix_complete, take_name_of_name by assumption.
  destruct n; [discriminate | reflexivity].
Qed.

Lemma first_link_none (s : string) : first_link s = None <-> ~ has_link s.
Proof.
  induction s as [|a s IH].
  - split; [|reflexivity]. intros _ [pre [c [post [_ E]]]].
    destruct pre; discriminate.
  - cbn [first_link]. destruct (link_at (String a s)) as [n|] eqn:L.
    + split; [discriminate|]. intros H. elim H.
      destruct (link_at_some _ _ L) as [post [E [N _]]].
      unfold name_ok in N. apply andb_true_iff in N as [N A].
      destruct n as [|c n]; [discriminate|]. cbn in A.
      apply andb_true_iff in A as [C _].
      exists "", c, (n ++ post). split; [exact C | exact E].
    + rewrite IH. split; intros H [pre [c [post [C E]]]]; apply H.
      * destruct pre as [|b pre].
        -- cbn [append] in E. rewrite E in L.
           now elim (link_at_of_link c post C).
        -- inversion E. exists pre, c, post. split; [exact C | reflexivity].
      * exists (String a pre), c, post. split; [exact C|]. now rewrite E.
Qed.

Lemma first_link_some (s n : string) :
  first_link s = Some n ->
  exists pre post,
    s = pre ++ link_prefix ++ n ++ post /\
    name_ok n = true /\ name_ends post = true /\
    forall pre' c post',
      name_char c = true -> s = pre' ++ link_prefix ++ String c post' ->
      (String.length pre <= String.length pre')%nat.
Proof.
  induction s as [|a s IH]; [discriminate|].
  cbn [first_link]. destruct (link_at (String a s)) as [m|] eqn:L.
  - intros X; inversion X; subst m.
    destruct (link_at_some _ _ L) as [post [E [N Z]]].
    exists "", post. repeat split; try assumption. intros. cbn. lia.
  - intros X. destruct (IH X) as [pre [post [E [N [Z Min]]]]].
    exists (String a pre), post. repeat split; try assumption.
    + now rewrite E.
    + intros pre' c post' C E'. destruct pre' as [|b pre'].
      * cbn [append] in E'. rewrite E' in L.
        now elim (link_at_of_link c post' C).
      * injection E' as _ Hs. cbn [String.length].
        apply le_n_S. exact (Min pre' c post' C Hs).
Qed.

Lemma first_link_of_scheme (scheme s : string) :
  scheme_ok scheme -> first_link (scheme ++ s) = first_link s.
Proof.
  intros [H | [H | H]]; subst scheme; cbn [append];
    repeat (rewrite link_at_skip by reflexivity); reflexivity.
Qed.

Lemma first_link_whole (n : string) :
  name_ok n = true -> first_link (link_prefix ++ n) = Some n.
Proof.
  intros N. pose proof (link_at_of_name n "" N eq_refl) as L.
  rewrite append_nil_r in L. unfold link_prefix in *. cbn [append first_link] in *.
  now rewrite L.
Qed.

(* ================================================================= *)
(** ** Identifier normalizer: the claims                              *)
(* ================================================================= *)

(** C3.  On every input that is a sharing link (an optional [http://] or
    [https://], then [t.me/addemoji/], then a name of letters, digits and
    underscores) [extract_pack_name] returns exactly the name; on every
    input the pattern does not match (it has no [t.me/addemoji/] followed
    by a name character) it returns the input unchanged; and the two
    examples of the specification hold. *)
Theorem extract_pack_name_spec :
  (forall scheme n,
      scheme_ok scheme -> name_ok n = true ->
      extract_pack_name (scheme ++ link_prefix ++ n) = n) /\
  (forall s, ~ has_link s -> extract_pack_name s = s) /\
  extract_pack_name "https://t.me/addemoji/foo_bar" = "foo_bar" /\
  extract_pack_name "foo_bar" = "foo_bar".
Proof.
  split; [|split; [|split; reflexivity]].
  - intros scheme n S N. rewrite extract_first_link.
    now rewrite first_link_of_scheme, first_link_whole.
  - intros s H. rewrite extract_first_link.
    apply first_link_none in H. now rewrite H.
Qed.

Lemma extract_pack_name_spec_witness :
  extract_pack_name ("http://" ++ link_prefix ++ "Pack_01") = "Pack_01" /\
  extract_pack_name "no link: t.me/addemoji/-" = "no link: t.me/addemoji/-".
Proof.
  destruct extract_pack_name_spec as [Hlink [Hid _]]. split.
  - apply Hlink; [right; left; reflexivity | reflexivity].
  - apply Hid. apply first_link_none. reflexivity.
Defined.

(** C10.  The pattern is searched for anywhere in the input.  Whenever the
    input contains [t.me/addemoji/] followed by a name character, whatever
    text surrounds it, the result is the name captured at the leftmost
    such place: the longest run of name characters there.  It is never the
    input itself.  The inputs returned unchanged are exactly those without
    such a substring. *)
Theorem extract_pack_name_searches (s : string) :
  (has_link s ->
   exists pre n post,
     s = pre ++ link_prefix ++ n ++ post /\
     name_ok n = true /\ name_ends post = true /\
     (forall pre' c post',
         name_char c = true -> s = pre' ++ link_prefix ++ String c post' ->
         (String.length pre <= String.length pre')%nat) /\
     extract_pack_name s = n /\
     extract_pack_name s <> s) /\
  (extract_pack_name s = s <-> ~ has_link s).
Proof.
  assert (Hyes : has_link s ->
    exists pre n post,
     s = pre ++ link_prefix ++ n ++ post /\
     name_ok n = true /\ name_ends post = true /\
     (forall pre' c post',
         name_char c = true -> s = pre' ++ link_prefix ++ String c post' ->
         (String.length pre <= String.length pre')%nat) /\
     extract_pack_name s = n /\
     extract_pack_name s <> s).
  { intros H. rewrite extract_first_link.
    destruct (first_link s) as [n|] eqn:F.
    - destruct (first_link_some _ _ F) as [pre [post [E [N [Z Min]]]]].
      exists pre, n, post. repeat split; try assumption.
      intros X. apply (f_equal String.length) in X. rewrite E in X.
      rewrite !length_append in X. cbn in X. lia.
    - apply first_link_none in F. contradiction. }
  split; [exact Hyes|]. split.
  - intros E H. destruct (Hyes H) as [_ [_ [_ [_ [_ [_ [_ [_ X]]]]]]]].
    contradiction.
  - intros H. rewrite extract_first_link. apply first_link_none in H.
    now rewrite H.
Qed.

Lemma extract_pack_name_searches_witness :
  extract_pack_name "join https://t.me/addemoji/foo_bar?x t.me/addemoji/z"
  <> "join https://t.me/addemoji/foo_bar?x t.me/addemoji/z".
Proof.
  destruct (extract_pack_name_searches
              "join https://t.me/addemoji/foo_bar?x t.me/addemoji/z")
    as [H _].
  destruct H as [pre [n [post [_ [_ [_ [_ [_ X]]]]]]]]; [|exact X].
  exists "join https://", "f"%char, "oo_bar?x t.me/addemoji/z".
  split; reflexivity.
Defined.

(* ================================================================= *)
(** ** Reading well-formed records                                    *)
(* ================================================================= *)

Section Fields.

Variable m : list (string * json).
Variable k : string.

Lemma as_str_get (d : string) :
  field_ok is_str k m = true ->
  as_str (match lookup k m with Some v => v | None => JStr d end)
  = Return (str_field k d m).
Proof.
  unfold field_ok, str_field.
  destruct (lookup k m) as [[]|]; cbn; congruence.
Qed.

Lemma add_str_get (d b : string) :
  field_ok is_str k m = true ->
  add_str (match lookup k m with Some v => v | None => JStr d end) b
  = Return (str_field k d m ++ b).
Proof.
  unfold field_ok, str_field.
  destruct (lookup k m) as [[]|]; cbn; congruence.
Qed.

Lemma slice_to_get (n : nat) (d : string) :
  field_ok is_str k m = true ->
  slice_to n (match lookup k m with Some v => v | None => JStr d end)
  = Return (JStr (substring 0 n (str_field k d m))).
Proof.
  unfold field_ok, str_field.
  destruct (lookup k m) as [[]|]; cbn; congruence.
Qed.

Lemma as_opt_str_get :
  field_ok is_opt_str k m = true ->
  as_opt_str (match lookup k m with Some v => v | None => JNull end)
  = Return (opt_str_field k m).
Proof.
  unfold field_ok, opt_str_field.
  destruct (lookup k m) as [[]|]; cbn; congruence.
Qed.

Lemma as_int_get (d : Z) :
  field_ok is_int k m = true ->
  as_int (match lookup k m with Some v => v | None => JInt d end)
  = Return (int_field k d m).
Proof.
  unfold field_ok, int_field.
  destruct (lookup k m) as [[]|]; cbn; congruence.
Qed.

Lemma as_bool_get :
  field_ok is_bool k m = true ->
  as_bool (match lookup k m with Some v => v | None => JBool false end)
  = Return (flag k m).
Proof.
  unfold field_ok, flag.
  destruct (lookup k m) as [[]|]; cbn; congruence.
Qed.

Lemma truthy_get :
  field_ok is_bool k m = true ->
  truthy (match lookup k m with Some v => v | None => JNull end) = flag k m.
Proof.
  unfold field_ok, flag.
  destruct (lookup k m) as [[]|]; cbn; congruence.
Qed.

Lemma field_ok_opt :
  field_ok is_str k m = true -> field_ok is_opt_str k m = true.
Proof.
  unfold field_ok. destruct (lookup k m) as [[]|]; cbn; congruence.
Qed.

End Fields.

(* ================================================================= *)
(** ** Item mapper                                                    *)
(* ================================================================= *)

(** On a well-formed record the mapper returns, and returns [item_of]. *)
Lemma sticker_to_emoji_data_ok (m : list (string * json)) (url : string) :
  sticker_ok (JObj m) = true ->
  sticker_to_emoji_data (JObj m) url = Return (item_of m url).
Proof.
  cbn [sticker_ok]. rewrite !andb_true_iff.
  intros [[[[[[[[Hid Hset] Huniq] Hemoji] Hw] Hh] Ha] Hv] Hr].
  unfold sticker_to_emoji_data. cbn [dict_get obind].
  rewrite (truthy_get _ _ Ha), (truthy_get _ _ Hv).
  rewrite (add_str_get _ _ _ _ Hset), (slice_to_get _ _ _ _ Huniq).
  rewrite (as_opt_str_get _ _ Hemoji), (as_int_get _ _ _ Hw), (as_int_get _ _ _ Hh).
  rewrite (as_bool_get _ _ Ha), (as_bool_get _ _ Hv), (as_bool_get _ _ Hr).
  rewrite (as_opt_str_get _ _ (field_ok_opt _ _ Hset)).
  assert (Hidv :
    as_str (match lookup "custom_emoji_id" m with
            | Some v => v
            | None => match lookup "file_id" m with
                      | Some v => v
                      | None => JStr ""
                      end
            end)
    = Return (id (item_of m url))).
  { cbn [id item_of]. destruct (lookup "custom_emoji_id" m) as [[]|];
      try discriminate; try reflexivity.
    now apply as_str_get. }
  rewrite Hidv. unfold item_of, format_of.
  destruct (flag "is_animated" m), (flag "is_video" m);
    cbn [obind py_str id]; now rewrite append_assoc.
Qed.

(** Primitive operations raise nothing but [ShapeError]. *)

Lemma shape_only_return {A : Type} (a : A) : shape_only (Return a).
Proof. intros e H; discriminate. Qed.

Lemma shape_only_unmodelled {A : Type} : shape_only (@Unmodelled A).
Proof. intros e H; discriminate. Qed.

Lemma shape_only_raise {A : Type} : shape_only (@Raise A ShapeError).
Proof. intros e H; now inversion H. Qed.

Lemma shape_only_obind {A B : Type} (o : outcome A) (f : A -> outcome B) :
  shape_only o -> (forall a, shape_only (f a)) -> shape_only (obind o f).
Proof.
  intros Ho Hf e. destruct o as [a|e'|]; cbn [obind].
  - apply Hf.
  - intros H; inversion H; subst. now apply Ho.
  - discriminate.
Qed.

Lemma shape_only_dict_get (d : json) (k : string) (default : json) :
  shape_only (dict_get d k default).
Proof. destruct d; intros e H; cbn in H; now inversion H. Qed.

Lemma shape_only_getitem (d : json) (k : string) : shape_only (getitem d k).
Proof.
  destruct d; intros e H; cbn in H; try now inversion H.
  destruct (lookup k members); now inversion H.
Qed.

Lemma shape_only_getitem0 (v : json) : shape_only (getitem0 v).
Proof.
  destruct v as [| | |s|items|]; intros e H; cbn in H; try now inversion H.
  - destruct s; now inversion H.
  - destruct items; now inversion H.
Qed.

Lemma shape_only_py_iter (v : json) : shape_only (py_iter v).
Proof. destruct v; intros e H; cbn in H; now inversion H. Qed.

Lemma shape_only_add_str (a : json) (b : string) : shape_only (add_str a b).
Proof. destruct a; intros e H; cbn in H; now inversion H. Qed.

Lemma shape_only_slice_to (n : nat) (v : json) : shape_only (slice_to n v).
Proof. destruct v; intros e H; cbn in H; now inversion H. Qed.

Lemma shape_only_py_str (v : json) : shape_only (py_str v).
Proof. destruct v; intros e H; cbn in H; now inversion H. Qed.

Lemma shape_only_as_str (v : json) : shape_only (as_str v).
Proof. destruct v; intros e H; cbn in H; now inversion H. Qed.

Lemma shape_only_as_opt_str (v : json) : shape_only (as_opt_str v).
Proof. destruct v; intros e H; cbn in H; now inversion H. Qed.

Lemma shape_only_as_int (v : json) : shape_only (as_int v).
Proof. destruct v; intros e H; cbn in H; now inversion H. Qed.

Lemma shape_only_as_bool (v : json) : shape_only (as_bool v).
Proof. destruct v; intros e H; cbn in H; now inversion H. Qed.

Create HintDb shape.

#[local] Hint Resolve shape_only_return shape_only_unmodelled shape_only_raise
  shape_only_dict_get shape_only_getitem shape_only_getitem0
  shape_only_py_iter shape_only_add_str shape_only_slice_to shape_only_py_str
  shape_only_as_str shape_only_as_opt_str shape_only_as_int shape_only_as_bool
  : shape.

Ltac shape_steps :=
  repeat first
    [ apply shape_only_obind; [solve [auto with shape] | intros ?]
    | match goal with
      | |- shape_only (if ?b then _ else _) => destruct b
      end
    | solve [auto with shape] ].

(** The mapper fails only by the shape of the record. *)
Lemma sticker_to_emoji_data_shape (sticker : json) (url : string) :
  shape_only (sticker_to_emoji_data sticker url).
Proof.
  unfold sticker_to_emoji_data.
  apply shape_only_obind; [auto with shape | intros animated].
  apply shape_only_obind.
  - destruct (truthy animated); shape_steps.
  - intros ft. shape_steps.
Qed.

Lemma obind_return {A B : Type} (o : outcome A) (f : A -> outcome B) (b : B) :
  obind o f = Return b -> exists a, o = Return a /\ f a = Return b.
Proof.
  destruct o as [a| |]; cbn [obind]; try discriminate. intros H. now exists a.
Qed.

Ltac obind_inv H :=
  let a := fresh "a" in
  let E := fresh "E" in
  apply obind_return in H; destruct H as [a [E H]].

(** Whenever the mapper returns, the item has the format and the short
    name that the record's members give. *)
Lemma sticker_to_emoji_data_returns (m : list (string * json)) (url : string)
    (item : EmojiData) :
  sticker_to_emoji_data (JObj m) url = Return item ->
  file_type item =
    format_of (truthy (match lookup "is_animated" m with
                       | Some v => v | None => JNull end))
              (truthy (match lookup "is_video" m with
                       | Some v => v | None => JNull end)) /\
  short_name item =
    str_field "set_name" "emoji" m ++ "_"
      ++ substring 0 8 (str_field "file_unique_id" "" m) /\
  file_url item = url.
Proof.
  unfold sticker_to_emoji_data. cbn [dict_get obind]. intros H.
  obind_inv H. obind_inv H. obind_inv H. obind_inv H.
  repeat obind_inv H. inversion H; subst item; clear H. cbn.
  repeat split.
  - unfold format_of.
    destruct (truthy match lookup "is_animated" m with
                     | Some v => v | None => JNull end).
    + now inversion E.
    + cbn in E. inversion E. reflexivity.
  - unfold str_field.
    destruct (lookup "set_name" m) as [[]|]; cbn in E0; try discriminate;
      inversion E0; subst;
      destruct (lookup "file_unique_id" m) as [[]|]; cbn in E1; try discriminate;
      inversion E1; subst; cbn in E2; try discriminate; inversion E2; subst;
      try rewrite append_assoc; reflexivity.
Qed.

(** C4.  The mapper is a function of its two arguments: the same record
    and URL give the same result.  For each of the four values of the pair
    ([is_animated], [is_video]) the item's format is [tgs] when
    [is_animated] holds, else [webm] when [is_video] holds, else [png]:
    so for whatever item the mapper returns, and it does return one on
    every well-formed record. *)
Theorem sticker_to_emoji_data_format :
  (forall sticker url r1 r2,
      sticker_to_emoji_data sticker url = r1 ->
      sticker_to_emoji_data sticker url = r2 -> r1 = r2) /\
  (forall m url (a v : bool) item,
      lookup "is_animated" m = Some (JBool a) ->
      lookup "is_video" m = Some (JBool v) ->
      sticker_to_emoji_data (JObj m) url = Return item ->
      file_type item = (if a then "tgs" else if v then "webm" else "png")) /\
  (forall m url (a v : bool),
      sticker_ok (JObj m) = true ->
      lookup "is_animated" m = Some (JBool a) ->
      lookup "is_video" m = Some (JBool v) ->
      exists item,
        sticker_to_emoji_data (JObj m) url = Return item /\
        file_type item = (if a then "tgs" else if v then "webm" else "png") /\
        is_animated item = a /\ is_video item = v).
Proof.
  split; [|split].
  - intros sticker url r1 r2 H1 H2. now rewrite <- H1, <- H2.
  - intros m url a v item Ha Hv H.
    apply sticker_to_emoji_data_returns in H as [H _].
    now rewrite H, Ha, Hv.
  - intros m url a v Hok Ha Hv. exists (item_of m url).
    split; [now apply sticker_to_emoji_data_ok|].
    cbn [file_type is_animated is_video item_of]. unfold flag.
    now rewrite Ha, Hv.
Qed.

Lemma sticker_to_emoji_data_format_witness :
  file_type (item_of [("is_animated", JBool true); ("is_video", JBool true)] "u")
    = "tgs" /\
  file_type (item_of [("is_animated", JBool true); ("is_video", JBool false)] "u")
    = "tgs" /\
  file_type (item_of [("is_animated", JBool false); ("is_video", JBool true)] "u")
    = "webm" /\
  file_type (item_of [("is_animated", JBool false); ("is_video", JBool false)] "u")
    = "png".
Proof.
  destruct sticker_to_emoji_data_format as [_ [H _]].
  split; [|split; [|split]].
  - apply (H [("is_animated", JBool true); ("is_video", JBool true)] "u" true true);
      reflexivity.
  - apply (H [("is_animated", JBool true); ("is_video", JBool false)] "u" true false);
      reflexivity.
  - apply (H [("is_animated", JBool false); ("is_video", JBool true)] "u" false true);
      reflexivity.
  - apply (H [("is_animated", JBool false); ("is_video", JBool false)] "u" false false);
      reflexivity.
Defined.

(** C9, as the specification words it, fails: the code puts an underscore
    between the pack name and the prefix of the unique file identifier. *)
Lemma short_name_as_specified_counterexample :
  sticker_to_emoji_data (JObj sample_sticker_members) ""
    = Return (item_of sample_sticker_members "") /\
  short_name (item_of sample_sticker_members "") = "pack_AgADBQAD" /\
  short_name_as_specified sample_sticker_members = "packAgADBQAD" /\
  short_name (item_of sample_sticker_members "")
    <> short_name_as_specified sample_sticker_members.
Proof. repeat split; try reflexivity. discriminate. Qed.

(** C9, amended.  The item's short name is the record's pack name (or
    ["emoji"] when the record has none), an underscore, and the first 8
    characters of the record's unique file identifier: so for whatever
    item the mapper returns, and it does return one on every well-formed
    record. *)
Theorem short_name_synthesis :
  (forall m url item,
      sticker_to_emoji_data (JObj m) url = Return item ->
      short_name item =
        str_field "set_name" "emoji" m ++ "_"
          ++ substring 0 8 (str_field "file_unique_id" "" m)) /\
  (forall m url,
      sticker_ok (JObj m) = true ->
      exists item,
        sticker_to_emoji_data (JObj m) url = Return item /\
        short_name item =
          str_field "set_name" "emoji" m ++ "_"
            ++ substring 0 8 (str_field "file_unique_id" "" m)).
Proof.
  split.
  - intros m url item H. now apply sticker_to_emoji_data_returns in H.
  - intros m url Hok. exists (item_of m url).
    split; [now apply sticker_to_emoji_data_ok | reflexivity].
Qed.

Lemma short_name_synthesis_witness :
  short_name (item_of sample_sticker_members "") = "pack_AgADBQAD" /\
  short_name (item_of [("file_unique_id", JStr "xyz")] "") = "emoji_xyz".
Proof.
  destruct short_name_synthesis as [H _]. split.
  - apply (H sample_sticker_members ""). reflexivity.
  - apply (H [("file_unique_id", JStr "xyz")] ""). reflexivity.
Defined.

(* ================================================================= *)
(** ** Upstream client                                                *)
(* ================================================================= *)

(** What each operation returns, read off the reply to its one request. *)
Lemma get_sticker_set_eq (api : TelegramAPI) (name : string)
    (log : list request) :
  let r := respond (client api) log (sticker_set_request api name) in
  get_sticker_set api name log =
  (Return (if reply_ok r
           then match reply_result r with Some v => v | None => JNull end
           else JNull),
   (log ++ [sticker_set_request api name])%list).
Proof.
  unfold get_sticker_set, try_except, bind, post, sticker_set_request.
  cbv zeta.
  destruct (respond (client api) log _) as [|[data|]]; try reflexivity.
  destruct data; try reflexivity.
  cbn. destruct (lookup "ok" members) as [ok|]; cbn; [|reflexivity].
  destruct (truthy ok); reflexivity.
Qed.

Lemma get_custom_emoji_stickers_eq (api : TelegramAPI) (ids : list string)
    (log : list request) :
  let r := respond (client api) log (custom_emoji_request api ids) in
  get_custom_emoji_stickers api ids log =
  (Return (if reply_ok r
           then match reply_result r with Some v => v | None => JArr [] end
           else JArr []),
   (log ++ [custom_emoji_request api ids])%list).
Proof.
  unfold get_custom_emoji_stickers, try_except, bind, post, custom_emoji_request.
  cbv zeta.
  destruct (respond (client api) log _) as [|[data|]]; try reflexivity.
  destruct data; try reflexivity.
  cbn. destruct (lookup "ok" members) as [ok|]; cbn; [|reflexivity].
  destruct (truthy ok); reflexivity.
Qed.

Lemma get_file_eq (api : TelegramAPI) (file_id : json) (log : list request) :
  let r := respond (client api) log (file_request api file_id) in
  get_file api file_id log =
  (if reply_ok r
   then match reply_file_path r with
        | Some v =>
            if truthy v
            then match v with
                 | JStr path => Return (Some (download_url api path))
                 | _ => Unmodelled
                 end
            else Return None
        | None => Return None
        end
   else Return None,
   (log ++ [file_request api file_id])%list).
Proof.
  unfold get_file, try_except, bind, post, file_request, reply_file_path.
  cbv zeta.
  destruct (respond (client api) log _) as [|[data|]]; try reflexivity.
  destruct data; try reflexivity.
  cbn. destruct (lookup "ok" members) as [ok|]; cbn; [|reflexivity].
  destruct (truthy ok); [|reflexivity].
  destruct (lookup "result" members) as [result|]; cbn; [|reflexivity].
  destruct result; try reflexivity.
  cbn. destruct (lookup "file_path" members0) as [v|]; cbn; [|reflexivity].
  destruct (truthy v) eqn:T; [|reflexivity].
  destruct v; reflexivity.
Qed.

(** C7.  [get_file] resolves in two steps.  It sends one request, the
    lookup of the file-path token of [file_id].  When the reply reports
    success and carries a token, the result is the URL made of the fixed
    template, the credential and the token.  When the lookup fails (the
    post raises, the body does not decode, the reply is not a success) or
    the token is missing (no [result] object, no [file_path], or an empty
    one) the result is [None]. *)
Theorem get_file_two_step (api : TelegramAPI) (file_id : json)
    (log : list request) :
  let r := respond (client api) log (file_request api file_id) in
  snd (get_file api file_id log) = (log ++ [file_request api file_id])%list /\
  (forall path,
      reply_ok r = true -> reply_file_path r = Some (JStr path) ->
      path <> "" ->
      fst (get_file api file_id log)
      = Return (Some ("https://api.telegram.org/file/bot" ++ token api
                        ++ "/" ++ path))) /\
  (r = Failed \/ r = Body None \/ reply_ok r = false ->
   fst (get_file api file_id log) = Return None) /\
  (reply_file_path r = None \/
   (exists v, reply_file_path r = Some v /\ truthy v = false) ->
   fst (get_file api file_id log) = Return None).
Proof.
  cbv zeta. rewrite get_file_eq. cbn [fst snd].
  split; [reflexivity|]. split; [|split].
  - intros path Hok Hp Hne. rewrite Hok, Hp. cbn [truthy].
    destruct path; [now elim Hne | reflexivity].
  - intros [H | [H | H]]; rewrite H; reflexivity.
  - intros [H | [v [H T]]]; rewrite H; [|rewrite T];
      destruct (reply_ok _); reflexivity.
Qed.

Lemma get_file_two_step_witness :
  fst (get_file (new_TelegramAPI "123:abc" sample_file_client) (JStr "F1") [])
  = Return (Some "https://api.telegram.org/file/bot123:abc/stickers/f1.webm").
Proof.
  destruct (get_file_two_step (new_TelegramAPI "123:abc" sample_file_client)
              (JStr "F1") []) as [_ [H _]].
  apply (H "stickers/f1.webm"); [reflexivity | reflexivity | discriminate].
Defined.

(* ================================================================= *)
(** ** Running the sequential code                                    *)
(* ================================================================= *)

Section Running.

Context {A B : Type}.

Lemma bind_eq (m : M A) (f : A -> M B) (log log1 : list request) (a : A) :
  m log = (Return a, log1) -> bind m f log = f a log1.
Proof. unfold bind. now intros ->. Qed.

Lemma bind_return_inv (m : M A) (f : A -> M B) (log log' : list request)
    (b : B) :
  bind m f log = (Return b, log') ->
  exists a log1, m log = (Return a, log1) /\ f a log1 = (Return b, log').
Proof.
  unfold bind. destruct (m log) as [[a|e|] log1]; try discriminate.
  intros H. now exists a, log1.
Qed.

Lemma bind_raise_inv (m : M A) (f : A -> M B) (log log' : list request)
    (e : exn) :
  bind m f log = (Raise e, log') ->
  m log = (Raise e, log') \/
  exists a log1, m log = (Return a, log1) /\ f a log1 = (Raise e, log').
Proof.
  unfold bind. destruct (m log) as [[a|e'|] log1]; try discriminate.
  - intros H. right. now exists a, log1.
  - intros H. left. now inversion H.
Qed.

Lemma raises_in_bind (P : exn -> Prop) (m : M A) (f : A -> M B) :
  raises_in P m -> (forall a, raises_in P (f a)) -> raises_in P (bind m f).
Proof.
  intros Hm Hf log e log' H.
  apply bind_raise_inv in H as [H | [a [log1 [_ H]]]].
  - eapply Hm; eassumption.
  - eapply Hf; eassumption.
Qed.

Lemma raises_in_weaken (P Q : exn -> Prop) (m : M A) :
  (forall e, P e -> Q e) -> raises_in P m -> raises_in Q m.
Proof. intros PQ H log e log' E. apply PQ. eapply H; eassumption. Qed.

Lemma raises_in_lift (P : exn -> Prop) (o : outcome A) :
  P ShapeError -> shape_only o -> raises_in P (lift o).
Proof.
  intros HP Ho log e log' H. unfold lift in H. inversion H; subst.
  now rewrite (Ho e eq_refl).
Qed.

Lemma raises_in_ret (P : exn -> Prop) (a : A) : raises_in P (ret a).
Proof. intros log e log' H; discriminate. Qed.

Lemma raises_in_raise (P : exn -> Prop) (e : exn) :
  P e -> raises_in P (@raise A e).
Proof. intros HP log e' log' H. unfold raise in H. now inversion H; subst. Qed.

Lemma extends_refl (log : list request) : extends log log.
Proof. exists []. now rewrite app_nil_r. Qed.

Lemma extends_trans (l1 l2 l3 : list request) :
  extends l1 l2 -> extends l2 l3 -> extends l1 l3.
Proof.
  intros [m1 ->] [m2 ->]. exists (m1 ++ m2)%list. now rewrite app_assoc.
Qed.

Lemma grows_bind (m : M A) (f : A -> M B) :
  grows m -> (forall a, grows (f a)) -> grows (bind m f).
Proof.
  intros Hm Hf log. unfold bind. specialize (Hm log).
  destruct (m log) as [[a|e|] log1]; cbn [snd] in *; try exact Hm.
  eapply extends_trans; [exact Hm | apply Hf].
Qed.

Lemma grows_lift (o : outcome A) : grows (lift o).
Proof. intros log. apply extends_refl. Qed.

Lemma grows_ret (a : A) : grows (ret a).
Proof. intros log. apply extends_refl. Qed.

Lemma grows_raise (e : exn) : grows (@raise A e).
Proof. intros log. apply extends_refl. Qed.

End Running.

Lemma get_file_never_raises (api : TelegramAPI) (file_id : json)
    (P : exn -> Prop) :
  raises_in P (get_file api file_id).
Proof.
  intros log e log' H. rewrite get_file_eq in H. exfalso.
  destruct (reply_ok _); [|discriminate].
  destruct (reply_file_path _) as [v|]; [|discriminate].
  destruct (truthy v); [|discriminate].
  destruct v; discriminate.
Qed.

Lemma get_file_grows (api : TelegramAPI) (file_id : json) :
  grows (get_file api file_id).
Proof. intros log. rewrite get_file_eq. cbn [snd]. now eexists. Qed.

Lemma get_file_conform (api : TelegramAPI) (file_id : json)
    (log : list request) :
  files_conform api ->
  exists located,
    get_file api file_id log
    = (Return located, (log ++ [file_request api file_id])%list).
Proof.
  intros H. specialize (H log file_id). rewrite get_file_eq.
  unfold file_reply_ok in H.
  destruct (reply_ok _); [|now eexists].
  destruct (reply_file_path _) as [v|]; [|now eexists].
  destruct (truthy v); [|now eexists].
  destruct v; try discriminate. now eexists.
Qed.

(** The mapper returns items with the URL it was given. *)
Lemma sticker_to_emoji_data_url (sticker : json) (url : string)
    (item : EmojiData) :
  sticker_to_emoji_data sticker url = Return item -> file_url item = url.
Proof.
  destruct sticker; try discriminate.
  intros H. now apply sticker_to_emoji_data_returns in H.
Qed.

Lemma process_sticker_raises (api : TelegramAPI) (sticker : json) :
  raises_in (fun e => e = ShapeError) (process_sticker api sticker).
Proof.
  unfold process_sticker.
  apply raises_in_bind; [apply raises_in_lift; auto with shape | intros fid].
  apply raises_in_bind; [apply get_file_never_raises | intros located].
  apply raises_in_lift; [reflexivity | apply sticker_to_emoji_data_shape].
Qed.

Lemma process_sticker_grows (api : TelegramAPI) (sticker : json) :
  grows (process_sticker api sticker).
Proof.
  unfold process_sticker.
  apply grows_bind; [apply grows_lift | intros fid].
  apply grows_bind; [apply get_file_grows | intros located].
  apply grows_lift.
Qed.

Lemma process_sticker_returns (api : TelegramAPI) (sticker : json)
    (log log' : list request) (item : EmojiData) :
  process_sticker api sticker log = (Return item, log') ->
  maps_to api sticker item.
Proof.
  unfold process_sticker. intros H.
  apply bind_return_inv in H as [fid [log1 [E1 H]]].
  apply bind_return_inv in H as [located [log2 [E2 H]]].
  unfold lift in E1, H.
  injection H as Hitem _. injection E1 as Hfid Hlog. subst log1.
  exists log, located.
  assert (fid = file_id_of sticker) as ->.
  { destruct sticker; cbn in Hfid; try discriminate. now inversion Hfid. }
  rewrite E2. repeat split; [assumption|].
  now apply sticker_to_emoji_data_url in Hitem.
Qed.

Lemma process_sticker_ok (api : TelegramAPI) (sticker : json)
    (log : list request) :
  files_conform api -> sticker_ok sticker = true ->
  exists item log', process_sticker api sticker log = (Return item, log').
Proof.
  intros Hf Hs. destruct sticker as [| | | | |m]; try discriminate.
  unfold process_sticker.
  destruct (get_file_conform api (file_id_of (JObj m)) log Hf) as [located E].
  exists (item_of m (or_empty located)). eexists.
  unfold bind, lift. cbn [dict_get]. cbn [file_id_of] in E. rewrite E.
  now rewrite sticker_to_emoji_data_ok.
Qed.

Section Loop.

Variable api : TelegramAPI.

Lemma for_each_raises (records : list json) :
  raises_in (fun e => e = ShapeError) (for_each (process_sticker api) records).
Proof.
  induction records as [|x xs IH]; cbn [for_each].
  - apply raises_in_ret.
  - apply raises_in_bind; [apply process_sticker_raises | intros y].
    apply raises_in_bind; [exact IH | intros ys]. apply raises_in_ret.
Qed.

Lemma for_each_grows (records : list json) :
  grows (for_each (process_sticker api) records).
Proof.
  induction records as [|x xs IH]; cbn [for_each].
  - apply grows_ret.
  - apply grows_bind; [apply process_sticker_grows | intros y].
    apply grows_bind; [exact IH | intros ys]. apply grows_ret.
Qed.

(** The loop keeps one item per record, in order. *)
Lemma for_each_returns (records : list json) :
  forall log log' items,
    for_each (process_sticker api) records log = (Return items, log') ->
    Forall2 (maps_to api) records items.
Proof.
  induction records as [|x xs IH]; cbn [for_each]; intros log log' items H.
  - unfold ret in H. inversion H. constructor.
  - apply bind_return_inv in H as [y [log1 [E1 H]]].
    apply bind_return_inv in H as [ys [log2 [E2 H]]].
    unfold ret in H. inversion H; subst. constructor.
    + eapply process_sticker_returns; eassumption.
    + eapply IH; eassumption.
Qed.

Lemma for_each_ok (records : list json) :
  files_conform api -> forallb sticker_ok records = true ->
  forall log,
  exists items log',
    for_each (process_sticker api) records log = (Return items, log').
Proof.
  intros Hf. induction records as [|x xs IH]; cbn [for_each forallb];
    intros Hok log.
  - now exists [], log.
  - apply andb_true_iff in Hok as [Hx Hxs].
    destruct (process_sticker_ok api x log Hf Hx) as [y [log1 E1]].
    destruct (IH Hxs log1) as [ys [log2 E2]].
    exists (y :: ys), log2.
    rewrite (bind_eq _ _ _ _ _ E1), (bind_eq _ _ _ _ _ E2). reflexivity.
Qed.

End Loop.

(* ================================================================= *)
(** ** Endpoints                                                      *)
(* ================================================================= *)

Lemma bind_lift_eq {A B : Type} (o : outcome A) (f : A -> M B)
    (log : list request) (a : A) :
  o = Return a -> bind (lift o) f log = f a log.
Proof. intros ->. reflexivity. Qed.

Lemma bind_lift_inv {A B : Type} (o : outcome A) (f : A -> M B)
    (log log' : list request) (b : B) :
  bind (lift o) f log = (Return b, log') ->
  exists a, o = Return a /\ f a log = (Return b, log').
Proof.
  unfold bind, lift. destruct o as [a|e|]; try discriminate.
  intros H. now exists a.
Qed.

Ltac raises_steps :=
  repeat first
    [ apply raises_in_ret
    | apply get_file_never_raises
    | apply for_each_raises
    | apply raises_in_lift;
        [reflexivity
        | first [apply sticker_to_emoji_data_shape | solve [auto with shape]]]
    | apply raises_in_bind; [|intros ?] ].

Ltac grows_steps :=
  repeat first
    [ apply grows_ret
    | apply grows_lift
    | apply get_file_grows
    | apply for_each_grows
    | apply grows_bind; [|intros ?] ].

(** What is left of a run once [H] says that its tail raised: the tail
    raises nothing but [ShapeError]. *)
Ltac tail_shape H :=
  match type of H with
  | ?m ?l = (Raise ?e, _) =>
      let R := fresh "R" in
      assert (R : raises_in (fun e => e = ShapeError) m) by raises_steps;
      apply R in H
  end.

(** [get_pack] with a client: the outcome turns on what [get_sticker_set]
    returned. *)
Lemma get_pack_raise_cases (api : TelegramAPI) (url : string)
    (log log' : list request) (e : exn) :
  get_pack (Some api) url log = (Raise e, log') ->
  exists v log1,
    get_sticker_set api (extract_pack_name url) log = (Return v, log1) /\
    ((truthy v = false /\ log' = log1 /\
      e = HTTPException 404 ("Pack not found: " ++ extract_pack_name url)) \/
     (truthy v = true /\ e = ShapeError)).
Proof.
  unfold get_pack. intros H.
  apply bind_raise_inv in H as [H | [v [log1 [E H]]]].
  - exfalso. revert H. rewrite get_sticker_set_eq; discriminate.
  - exists v, log1. split; [exact E|].
    destruct (truthy v); cbn [negb] in H.
    + right. split; [reflexivity|]. tail_shape H. exact H.
    + left. unfold raise in H. now inversion H.
Qed.

Lemma get_manifest_raise_cases (api : TelegramAPI) (pack_id : string)
    (log log' : list request) (e : exn) :
  get_manifest (Some api) pack_id log = (Raise e, log') ->
  exists v log1,
    get_sticker_set api pack_id log = (Return v, log1) /\
    ((truthy v = false /\ log' = log1 /\
      e = HTTPException 404 ("Pack not found: " ++ pack_id)) \/
     (truthy v = true /\ e = ShapeError)).
Proof.
  unfold get_manifest. intros H.
  apply bind_raise_inv in H as [H | [v [log1 [E H]]]].
  - exfalso. revert H. rewrite get_sticker_set_eq; discriminate.
  - exists v, log1. split; [exact E|].
    destruct (truthy v); cbn [negb] in H.
    + right. split; [reflexivity|]. tail_shape H. exact H.
    + left. unfold raise in H. now inversion H.
Qed.

Lemma get_emoji_raise_cases (api : TelegramAPI) (emoji_id : string)
    (log log' : list request) (e : exn) :
  get_emoji (Some api) emoji_id log = (Raise e, log') ->
  exists v log1,
    get_custom_emoji_stickers api [emoji_id] log = (Return v, log1) /\
    ((truthy v = false /\ log' = log1 /\
      e = HTTPException 404 ("Emoji not found: " ++ emoji_id)) \/
     (truthy v = true /\ e = ShapeError)).
Proof.
  unfold get_emoji. intros H.
  apply bind_raise_inv in H as [H | [v [log1 [E H]]]].
  - exfalso. revert H. rewrite get_custom_emoji_stickers_eq; discriminate.
  - exists v, log1. split; [exact E|].
    destruct (truthy v); cbn [negb] in H.
    + right. split; [reflexivity|]. tail_shape H. exact H.
    + left. unfold raise in H. now inversion H.
Qed.

(** C6.  Without a credential the global client is [None], and each of
    the three endpoints raises the 503 error at once: the log of requests
    is left as it was, nothing is sent. *)
Theorem not_configured_no_call (transport : AsyncClient) (ident : string)
    (log : list request) :
  lifespan "" transport = None /\
  get_pack (lifespan "" transport) ident log
    = (Raise (HTTPException 503 "Telegram API not configured"), log) /\
  get_emoji (lifespan "" transport) ident log
    = (Raise (HTTPException 503 "Telegram API not configured"), log) /\
  get_manifest (lifespan "" transport) ident log
    = (Raise (HTTPException 503 "Telegram API not configured"), log).
Proof. repeat split. Qed.

(** With a record of the documented shape the pack endpoint returns. *)
Lemma get_pack_ok (api : TelegramAPI) (url : string) (log log1 : list request)
    (m : list (string * json)) :
  get_sticker_set api (extract_pack_name url) log = (Return (JObj m), log1) ->
  truthy (JObj m) = true ->
  pack_ok (JObj m) = true ->
  files_conform api ->
  exists items log',
    for_each (process_sticker api) (stickers_of m) log1 = (Return items, log') /\
    get_pack (Some api) url log
    = (Return {| name := str_field "name" (extract_pack_name url) m;
                 title := str_field "title" (extract_pack_name url) m;
                 sticker_type := str_field "sticker_type" "custom_emoji" m;
                 stickers := items;
                 thumbnail :=
                   match lookup "thumbnail" m with
                   | Some (JObj t) => opt_str_field "file_id" t
                   | _ => None
                   end |}, log').
Proof.
  intros E T Hok Hf. cbn [pack_ok] in Hok. rewrite !andb_true_iff in Hok.
  destruct Hok as [[[[Hst Hname] Htitle] Htype] Hthumb].
  assert (Hall : forallb sticker_ok (stickers_of m) = true).
  { unfold stickers_of. destruct (lookup "stickers" m) as [[]|];
      try discriminate; [exact Hst | reflexivity]. }
  destruct (for_each_ok api _ Hf Hall log1) as [items [log' Eloop]].
  exists items, log'. split; [exact Eloop|].
  unfold get_pack. rewrite (bind_eq _ _ _ _ _ E), T. cbn [negb dict_get].
  assert (Hiter : py_iter (match lookup "stickers" m with
                           | Some v => v | None => JArr [] end)
                  = Return (stickers_of m)).
  { unfold stickers_of. destruct (lookup "stickers" m) as [[]|];
      try discriminate; reflexivity. }
  rewrite (bind_lift_eq _ _ _ _ eq_refl); cbv beta.
  rewrite (bind_lift_eq _ _ _ _ Hiter); cbv beta.
  rewrite (bind_eq _ _ _ _ _ Eloop); cbv beta.
  do 3 (rewrite (bind_lift_eq _ _ _ _ eq_refl); cbv beta).
  unfold thumbnail_ok in Hthumb.
  destruct (lookup "thumbnail" m) as [[| | | | |t]|]; try discriminate;
    do 2 (cbn [dict_get]; rewrite (bind_lift_eq _ _ _ _ eq_refl); cbv beta);
    rewrite (bind_lift_eq _ _ _ _ (as_str_get _ _ _ Hname)); cbv beta;
    rewrite (bind_lift_eq _ _ _ _ (as_str_get _ _ _ Htitle)); cbv beta;
    rewrite (bind_lift_eq _ _ _ _ (as_str_get _ _ _ Htype)); cbv beta.
  - rewrite (bind_lift_eq _ _ _ _ (as_opt_str_get _ _ Hthumb)). reflexivity.
  - cbn [lookup as_opt_str]. rewrite (bind_lift_eq _ _ _ _ eq_refl).
    reflexivity.
Qed.

Lemma sample_api_conforming : conforming sample_api.
Proof.
  split; [|split].
  - intros log name. reflexivity.
  - intros log ids. reflexivity.
  - intros log file_id. destruct log as [|q [|q' log]]; reflexivity.
Qed.

(** C5.  [get_pack] raises the 404 error, whose detail carries the
    normalized pack name, exactly when [get_sticker_set] for that name
    came back absent or empty, and it raises no other HTTP error.
    [get_emoji] looks up the one-element batch of its identifier and
    raises the 404 error, whose detail carries the identifier, exactly
    when the batch came back empty; otherwise it goes on with the first
    record of the batch: it resolves the record's file location and maps
    the record. *)
Theorem not_found_iff (api : TelegramAPI) (log log1 : list request) (v : json) :
  (forall url,
      get_sticker_set api (extract_pack_name url) log = (Return v, log1) ->
      (fst (get_pack (Some api) url log)
         = Raise (HTTPException 404
                    ("Pack not found: " ++ extract_pack_name url))
       <-> truthy v = false) /\
      (forall status detail,
          fst (get_pack (Some api) url log)
            = Raise (HTTPException status detail) ->
          status = 404%Z /\
          detail = "Pack not found: " ++ extract_pack_name url)) /\
  (forall emoji_id,
      get_custom_emoji_stickers api [emoji_id] log = (Return v, log1) ->
      log1 = (log ++ [((base_url api ++ "/getCustomEmojiStickers")%string,
                       JObj [("custom_emoji_ids", JArr [JStr emoji_id])])])%list /\
      (fst (get_emoji (Some api) emoji_id log)
         = Raise (HTTPException 404 ("Emoji not found: " ++ emoji_id))
       <-> truthy v = false) /\
      (forall status detail,
          fst (get_emoji (Some api) emoji_id log)
            = Raise (HTTPException status detail) ->
          status = 404%Z /\ detail = "Emoji not found: " ++ emoji_id) /\
      (forall first rest,
          v = JArr (first :: rest) ->
          get_emoji (Some api) emoji_id log = process_sticker api first log1)).
Proof.
  split.
  - intros url E.
    assert (Hcases : forall e,
      fst (get_pack (Some api) url log) = Raise e ->
      (truthy v = false /\
       e = HTTPException 404 ("Pack not found: " ++ extract_pack_name url)) \/
      (truthy v = true /\ e = ShapeError)).
    { intros e H.
      destruct (get_pack (Some api) url log) as [o log'] eqn:G.
      cbn [fst] in H. subst o.
      apply get_pack_raise_cases in G as [v' [l1 [E' C]]].
      rewrite E in E'. inversion E'; subst v' l1.
      destruct C as [[T [_ X]] | [T X]]; [left | right]; now split. }
    split; [split|].
    + intros H. apply Hcases in H as [[T _] | [_ X]]; [exact T | discriminate].
    + intros T. unfold get_pack. rewrite (bind_eq _ _ _ _ _ E), T. reflexivity.
    + intros status detail H.
      apply Hcases in H as [[_ X] | [_ X]]; [now inversion X | discriminate].
  - intros emoji_id E.
    assert (Hcases : forall e,
      fst (get_emoji (Some api) emoji_id log) = Raise e ->
      (truthy v = false /\
       e = HTTPException 404 ("Emoji not found: " ++ emoji_id)) \/
      (truthy v = true /\ e = ShapeError)).
    { intros e H.
      destruct (get_emoji (Some api) emoji_id log) as [o log'] eqn:G.
      cbn [fst] in H. subst o.
      apply get_emoji_raise_cases in G as [v' [l1 [E' C]]].
      rewrite E in E'. inversion E'; subst v' l1.
      destruct C as [[T [_ X]] | [T X]]; [left | right]; now split. }
    split; [|split; [split|split]].
    + rewrite get_custom_emoji_stickers_eq in E. now inversion E.
    + intros H. apply Hcases in H as [[T _] | [_ X]]; [exact T | discriminate].
    + intros T. unfold get_emoji. rewrite (bind_eq _ _ _ _ _ E), T. reflexivity.
    + intros status detail H.
      apply Hcases in H as [[_ X] | [_ X]]; [now inversion X | discriminate].
    + intros first rest ->. unfold get_emoji.
      rewrite (bind_eq _ _ _ _ _ E). reflexivity.
Qed.

Lemma not_found_iff_witness :
  fst (get_pack (Some (new_TelegramAPI "t" dead_client)) "unknownpack" [])
  = Raise (HTTPException 404 "Pack not found: unknownpack") /\
  fst (get_emoji (Some (new_TelegramAPI "t" dead_client)) "12345" [])
  = Raise (HTTPException 404 "Emoji not found: 12345").
Proof.
  split.
  - destruct (not_found_iff (new_TelegramAPI "t" dead_client) []
                [sticker_set_request (new_TelegramAPI "t" dead_client)
                   "unknownpack"] JNull) as [H _].
    destruct (H "unknownpack" eq_refl) as [[_ H1] _]. now apply H1.
  - destruct (not_found_iff (new_TelegramAPI "t" dead_client) []
                [custom_emoji_request (new_TelegramAPI "t" dead_client)
                   ["12345"]] (JArr [])) as [_ H].
    destruct (H "12345" eq_refl) as [_ [[_ H1] _]]. now apply H1.
Defined.

Lemma bind_sends_first {A B : Type} (m : M A) (f : A -> M B)
    (log : list request) (req : request) :
  snd (m log) = (log ++ [req])%list ->
  (forall a, grows (f a)) ->
  exists more, snd (bind m f log) = (log ++ req :: more)%list.
Proof.
  intros Hm Hf. unfold bind. destruct (m log) as [[a|e|] log1];
    cbn [snd] in *; subst log1.
  - destruct (Hf a (log ++ [req])%list) as [more E]. exists more.
    rewrite E, <- app_assoc. reflexivity.
  - now exists [].
  - now exists [].
Qed.

(** With a record of the documented shape the manifest endpoint returns. *)
Lemma get_manifest_ok (api : TelegramAPI) (pack_id : string)
    (log log1 : list request) (m : list (string * json)) :
  get_sticker_set api pack_id log = (Return (JObj m), log1) ->
  truthy (JObj m) = true ->
  pack_ok (JObj m) = true ->
  files_conform api ->
  exists q log', get_manifest (Some api) pack_id log = (Return q, log').
Proof.
  intros E T Hok Hf. cbn [pack_ok] in Hok. rewrite !andb_true_iff in Hok.
  destruct Hok as [[[[Hst Hname] Htitle] Htype] Hthumb].
  assert (Hall : forallb sticker_ok (stickers_of m) = true).
  { unfold stickers_of. destruct (lookup "stickers" m) as [[]|];
      try discriminate; [exact Hst | reflexivity]. }
  destruct (for_each_ok api _ Hf Hall log1) as [items [log' Eloop]].
  assert (Hiter : py_iter (match lookup "stickers" m with
                           | Some v => v | None => JArr [] end)
                  = Return (stickers_of m)).
  { unfold stickers_of. destruct (lookup "stickers" m) as [[]|];
      try discriminate; reflexivity. }
  eexists. exists log'.
  unfold get_manifest. rewrite (bind_eq _ _ _ _ _ E), T. cbn [negb dict_get].
  rewrite (bind_lift_eq _ _ _ _ eq_refl); cbv beta.
  rewrite (bind_lift_eq _ _ _ _ Hiter); cbv beta.
  rewrite (bind_eq _ _ _ _ _ Eloop); cbv beta.
  do 3 (rewrite (bind_lift_eq _ _ _ _ eq_refl); cbv beta).
  rewrite (bind_lift_eq _ _ _ _ (as_str_get _ _ _ Hname)); cbv beta.
  rewrite (bind_lift_eq _ _ _ _ (as_str_get _ _ _ Htitle)); cbv beta.
  rewrite (bind_lift_eq _ _ _ _ (as_str_get _ _ _ Htype)); cbv beta.
  reflexivity.
Qed.

(** C8.  [get_manifest] gives what [get_pack] gives for the same
    upstream replies, up to two differences.  It does not normalize: the
    string it is given is the name it asks the upstream for, so it stands
    beside [get_pack] at the normalized name of [get_pack]'s argument.
    And its pack has no thumbnail.  Whenever [get_pack] returns a pack,
    [get_manifest] returns the pack with the same name, title, kind and
    items in the same order, after the same requests; an HTTP error of
    the one is the same error of the other; and a pack that
    [get_manifest] returns is, but for the thumbnail, the pack that
    [get_pack] returns. *)
Theorem get_manifest_vs_get_pack (api : TelegramAPI) (url : string)
    (log : list request) :
  let pack_id := extract_pack_name url in
  (forall p log',
      get_pack (Some api) url log = (Return p, log') ->
      get_manifest (Some api) pack_id log = (Return (without_thumbnail p), log')) /\
  (forall status detail log',
      get_pack (Some api) url log = (Raise (HTTPException status detail), log') ->
      get_manifest (Some api) pack_id log
      = (Raise (HTTPException status detail), log')) /\
  (forall q log' m log1,
      get_sticker_set api pack_id log = (Return (JObj m), log1) ->
      thumbnail_ok m = true ->
      get_manifest (Some api) pack_id log = (Return q, log') ->
      exists p,
        get_pack (Some api) url log = (Return p, log') /\
        without_thumbnail p = q) /\
  (forall raw q log',
      get_manifest (Some api) raw log = (Return q, log') ->
      thumbnail q = None) /\
  (forall raw,
      exists more,
        snd (get_manifest (Some api) raw log)
        = (log ++ ((base_url api ++ "/getStickerSet")%string,
                   JObj [("name", JStr raw)]) :: more)%list).
Proof.
  cbv zeta. split; [|split; [|split; [|split]]].
  - intros p log' H. unfold get_pack in H. unfold get_manifest.
    apply bind_return_inv in H as [v [log1 [E H]]].
    rewrite (bind_eq _ _ _ _ _ E); cbv beta.
    destruct (negb (truthy v)); [unfold raise in H; discriminate|].
    apply bind_lift_inv in H as [listed [E1 H]].
    rewrite (bind_lift_eq _ _ _ _ E1); cbv beta.
    apply bind_lift_inv in H as [records [E2 H]].
    rewrite (bind_lift_eq _ _ _ _ E2); cbv beta.
    apply bind_return_inv in H as [items [log2 [E3 H]]].
    rewrite (bind_eq _ _ _ _ _ E3); cbv beta.
    apply bind_lift_inv in H as [name_arg [E4 H]].
    rewrite (bind_lift_eq _ _ _ _ E4); cbv beta.
    apply bind_lift_inv in H as [title_arg [E5 H]].
    rewrite (bind_lift_eq _ _ _ _ E5); cbv beta.
    apply bind_lift_inv in H as [type_arg [E6 H]].
    rewrite (bind_lift_eq _ _ _ _ E6); cbv beta.
    apply bind_lift_inv in H as [thumb [E7 H]].
    apply bind_lift_inv in H as [thumbnail_arg [E8 H]].
    apply bind_lift_inv in H as [name_v [E9 H]].
    rewrite (bind_lift_eq _ _ _ _ E9); cbv beta.
    apply bind_lift_inv in H as [title_v [E10 H]].
    rewrite (bind_lift_eq _ _ _ _ E10); cbv beta.
    apply bind_lift_inv in H as [type_v [E11 H]].
    rewrite (bind_lift_eq _ _ _ _ E11); cbv beta.
    apply bind_lift_inv in H as [thumbnail_v [E12 H]].
    unfold ret in H. inversion H; subst. reflexivity.
  - intros status detail log' H.
    apply get_pack_raise_cases in H as [v [log1 [E [[T [-> X]] | [_ X]]]]];
      [|discriminate].
    rewrite X. unfold get_manifest. rewrite (bind_eq _ _ _ _ _ E), T.
    reflexivity.
  - intros q log' m log1 E Hthumb H. unfold get_manifest in H. unfold get_pack.
    rewrite (bind_eq _ _ _ _ _ E) in H. rewrite (bind_eq _ _ _ _ _ E).
    destruct (negb (truthy (JObj m))); [unfold raise in H; discriminate|].
    apply bind_lift_inv in H as [listed [E1 H]].
    rewrite (bind_lift_eq _ _ _ _ E1); cbv beta.
    apply bind_lift_inv in H as [records [E2 H]].
    rewrite (bind_lift_eq _ _ _ _ E2); cbv beta.
    apply bind_return_inv in H as [items [log2 [E3 H]]].
    rewrite (bind_eq _ _ _ _ _ E3); cbv beta.
    apply bind_lift_inv in H as [name_arg [E4 H]].
    rewrite (bind_lift_eq _ _ _ _ E4); cbv beta.
    apply bind_lift_inv in H as [title_arg [E5 H]].
    rewrite (bind_lift_eq _ _ _ _ E5); cbv beta.
    apply bind_lift_inv in H as [type_arg [E6 H]].
    rewrite (bind_lift_eq _ _ _ _ E6); cbv beta.
    apply bind_lift_inv in H as [name_v [E9 H]].
    apply bind_lift_inv in H as [title_v [E10 H]].
    apply bind_lift_inv in H as [type_v [E11 H]].
    unfold ret in H. inversion H; subst q log2. clear H.
    assert (Hthumbnail : exists t,
      obind (dict_get (JObj m) "thumbnail" (JObj []))
            (fun thumb => obind (dict_get thumb "file_id" JNull) as_opt_str)
      = Return t).
    { cbn [dict_get obind]. unfold thumbnail_ok in Hthumb.
      destruct (lookup "thumbnail" m) as [[| | | | |t]|]; try discriminate.
      - cbn [dict_get obind]. rewrite (as_opt_str_get _ _ Hthumb). now eexists.
      - now eexists. }
    destruct Hthumbnail as [t Ht]. cbn [dict_get obind] in Ht.
    cbn [dict_get]. rewrite (bind_lift_eq _ _ _ _ eq_refl); cbv beta.
    destruct (dict_get (match lookup "thumbnail" m with
                        | Some v => v | None => JObj [] end) "file_id" JNull)
      as [thumbnail_arg| |] eqn:Earg; cbn [obind] in Ht; try discriminate.
    rewrite (bind_lift_eq _ _ _ _ eq_refl); cbv beta.
    rewrite (bind_lift_eq _ _ _ _ E9); cbv beta.
    rewrite (bind_lift_eq _ _ _ _ E10); cbv beta.
    rewrite (bind_lift_eq _ _ _ _ E11); cbv beta.
    rewrite (bind_lift_eq _ _ _ _ Ht); cbv beta.
    eexists. split; reflexivity.
  - intros raw q log' H. unfold get_manifest in H.
    apply bind_return_inv in H as [v [log1 [E H]]].
    destruct (negb (truthy v)); [unfold raise in H; discriminate|].
    apply bind_lift_inv in H as [listed [E1 H]].
    apply bind_lift_inv in H as [records [E2 H]].
    apply bind_return_inv in H as [items [log2 [E3 H]]].
    apply bind_lift_inv in H as [name_arg [E4 H]].
    apply bind_lift_inv in H as [title_arg [E5 H]].
    apply bind_lift_inv in H as [type_arg [E6 H]].
    apply bind_lift_inv in H as [name_v [E9 H]].
    apply bind_lift_inv in H as [title_v [E10 H]].
    apply bind_lift_inv in H as [type_v [E11 H]].
    unfold ret in H. now inversion H.
  - intros raw. unfold get_manifest. apply bind_sends_first.
    + now rewrite get_sticker_set_eq.
    + intros v. destruct (negb (truthy v)); [apply grows_raise | grows_steps].
Qed.

Lemma get_manifest_vs_get_pack_witness :
  exists p log',
    get_pack (Some sample_api) "https://t.me/addemoji/demo_pack" []
    = (Return p, log') /\
    thumbnail p = Some "T1" /\
    get_manifest (Some sample_api) "demo_pack" []
    = (Return (without_thumbnail p), log').
Proof.
  destruct (get_manifest_vs_get_pack sample_api
              "https://t.me/addemoji/demo_pack" []) as [H _].
  cbv zeta in H. do 2 eexists. split; [reflexivity|]. split; [reflexivity|].
  apply H. reflexivity.
Defined.

(* ================================================================= *)
(** ** What the endpoints surface                                     *)
(* ================================================================= *)

(** A truthy result of a conforming [getStickerSet] reply is a pack
    record. *)
Lemma conforming_set (api : TelegramAPI) (name : string)
    (log log1 : list request) (v : json) :
  conforming api ->
  get_sticker_set api name log = (Return v, log1) ->
  truthy v = true ->
  exists m, v = JObj m /\ pack_ok (JObj m) = true.
Proof.
  intros [Hset _] E T. rewrite get_sticker_set_eq in E.
  specialize (Hset log name). unfold set_reply_ok in Hset.
  destruct (reply_ok _); [|inversion E; subst v; discriminate].
  destruct (reply_result _) as [v'|]; [|inversion E; subst v; discriminate].
  inversion E; subst v' log1. rewrite T in Hset. cbn [negb orb] in Hset.
  destruct v; try discriminate. now exists members.
Qed.

Lemma get_pack_surfaced (api : TelegramAPI) (url : string)
    (log : list request) :
  conforming api -> surfaced (fst (get_pack (Some api) url log)).
Proof.
  intros Hc.
  pose proof (get_sticker_set_eq api (extract_pack_name url) log) as E. cbv zeta in E.
  match type of E with
  | _ = (Return ?x, ?l) => set (v := x) in E; set (log1 := l) in E
  end.
  destruct (truthy v) eqn:T.
  - destruct (conforming_set _ _ _ _ _ Hc E T) as [m [Em Hok]].
    rewrite Em in E, T.
    destruct (get_pack_ok api url log log1 m E T Hok (proj2 (proj2 Hc)))
      as [items [log' [_ Ep]]].
    rewrite Ep. exact I.
  - unfold get_pack. rewrite (bind_eq _ _ _ _ _ E), T. cbn. now right.
Qed.

Lemma get_manifest_surfaced (api : TelegramAPI) (pack_id : string)
    (log : list request) :
  conforming api -> surfaced (fst (get_manifest (Some api) pack_id log)).
Proof.
  intros Hc.
  pose proof (get_sticker_set_eq api pack_id log) as E. cbv zeta in E.
  match type of E with
  | _ = (Return ?x, ?l) => set (v := x) in E; set (log1 := l) in E
  end.
  destruct (truthy v) eqn:T.
  - destruct (conforming_set _ _ _ _ _ Hc E T) as [m [Em Hok]].
    rewrite Em in E, T.
    destruct (get_manifest_ok api pack_id log log1 m E T Hok (proj2 (proj2 Hc)))
      as [q [log' Ep]].
    rewrite Ep. exact I.
  - unfold get_manifest. rewrite (bind_eq _ _ _ _ _ E), T. cbn. now right.
Qed.

Lemma get_emoji_surfaced (api : TelegramAPI) (emoji_id : string)
    (log : list request) :
  conforming api -> surfaced (fst (get_emoji (Some api) emoji_id log)).
Proof.
  intros [_ [Hemoji Hfiles]].
  pose proof (get_custom_emoji_stickers_eq api [emoji_id] log) as E.
  cbv zeta in E. specialize (Hemoji log [emoji_id]).
  unfold emoji_reply_ok in Hemoji. unfold get_emoji.
  rewrite (bind_eq _ _ _ _ _ E); cbv beta.
  destruct (reply_ok _); [|cbn; now right].
  destruct (reply_result _) as [v|]; [|cbn; now right].
  destruct (truthy v) eqn:T; cbn [negb]; [|cbn; now right].
  destruct v as [| | | |items|]; try discriminate.
  destruct items as [|first rest]; [discriminate|].
  cbn [forallb] in Hemoji. apply andb_true_iff in Hemoji as [Hfirst _].
  destruct (process_sticker_ok api first
              (log ++ [custom_emoji_request api [emoji_id]])%list Hfiles Hfirst)
    as [item [log' Ep]].
  change (surfaced (fst (process_sticker api first
                           (log ++ [custom_emoji_request api [emoji_id]])%list))).
  rewrite Ep. exact I.
Qed.

(** C2.  None of the three operations of the client lets an exception
    out: the pack fetch and the batch lookup always return, and the file
    resolution never raises.  When the post fails, when the body does not
    decode, and when the reply is not a success, they return [None], the
    empty list and [None].  So no endpoint ever raises the transport or
    the decoding error of an upstream call; what an endpoint raises is
    the 503 error, the 404 error, or the error of a reply that reported
    success with a result that is not of the documented shape; and when
    the successful replies are of the documented shape, an endpoint
    either returns or raises one of the two. *)
Theorem upstream_faults_absorbed (api : TelegramAPI) (log : list request) :
  (forall name,
      let r := respond (client api) log (sticker_set_request api name) in
      exists v,
        get_sticker_set api name log
        = (Return v, (log ++ [sticker_set_request api name])%list) /\
        (r = Failed \/ r = Body None \/ reply_ok r = false -> v = JNull)) /\
  (forall ids,
      let r := respond (client api) log (custom_emoji_request api ids) in
      exists v,
        get_custom_emoji_stickers api ids log
        = (Return v, (log ++ [custom_emoji_request api ids])%list) /\
        (r = Failed \/ r = Body None \/ reply_ok r = false -> v = JArr [])) /\
  (forall file_id,
      let r := respond (client api) log (file_request api file_id) in
      (forall e, fst (get_file api file_id log) <> Raise e) /\
      (r = Failed \/ r = Body None \/ reply_ok r = false ->
       fst (get_file api file_id log) = Return None)) /\
  (forall telegram_api ident e,
      fst (get_pack telegram_api ident log) = Raise e \/
      fst (get_emoji telegram_api ident log) = Raise e \/
      fst (get_manifest telegram_api ident log) = Raise e ->
      upstream_fault e = false /\
      (e = not_configured \/ is_not_found e = true \/ e = ShapeError)) /\
  (conforming api ->
   forall ident,
     surfaced (fst (get_pack (Some api) ident log)) /\
     surfaced (fst (get_emoji (Some api) ident log)) /\
     surfaced (fst (get_manifest (Some api) ident log))).
Proof.
  split; [|split; [|split; [|split]]].
  - intros name r. rewrite get_sticker_set_eq. fold r. eexists.
    split; [reflexivity|]. intros [H | [H | H]]; rewrite H; reflexivity.
  - intros ids r. rewrite get_custom_emoji_stickers_eq. fold r. eexists.
    split; [reflexivity|]. intros [H | [H | H]]; rewrite H; reflexivity.
  - intros file_id r. split.
    + intros e H.
      destruct (get_file api file_id log) as [o log'] eqn:G.
      cbn [fst] in H. subst o.
      exact (get_file_never_raises api file_id (fun _ => False) _ _ _ G).
    + rewrite get_file_eq. fold r. cbn [fst].
      intros [H | [H | H]]; rewrite H; reflexivity.
  - intros telegram_api ident e H.
    assert (C : e = not_configured \/ is_not_found e = true \/ e = ShapeError).
    { destruct telegram_api as [a|].
      - destruct H as [H | [H | H]].
        + destruct (get_pack (Some a) ident log) as [o log'] eqn:G.
          cbn [fst] in H. subst o.
          apply get_pack_raise_cases in G
            as [v [log1 [_ [[_ [_ X]] | [_ X]]]]]; subst e; auto.
        + destruct (get_emoji (Some a) ident log) as [o log'] eqn:G.
          cbn [fst] in H. subst o.
          apply get_emoji_raise_cases in G
            as [v [log1 [_ [[_ [_ X]] | [_ X]]]]]; subst e; auto.
        + destruct (get_manifest (Some a) ident log) as [o log'] eqn:G.
          cbn [fst] in H. subst o.
          apply get_manifest_raise_cases in G
            as [v [log1 [_ [[_ [_ X]] | [_ X]]]]]; subst e; auto.
      - left. destruct H as [H | [H | H]]; cbn in H; now inversion H. }
    split; [|exact C].
    destruct C as [-> | [C | ->]]; try reflexivity.
    destruct e; try discriminate; reflexivity.
  - intros Hc ident. split; [|split].
    + now apply get_pack_surfaced.
    + now apply get_emoji_surfaced.
    + now apply get_manifest_surfaced.
Qed.

Lemma upstream_faults_absorbed_witness :
  get_sticker_set (new_TelegramAPI "t" dead_client) "demo_pack" []
  = (Return JNull,
     [sticker_set_request (new_TelegramAPI "t" dead_client) "demo_pack"]) /\
  fst (get_file (new_TelegramAPI "t" dead_client) (JStr "F1") []) = Return None /\
  surfaced (fst (get_pack (Some sample_api) "demo_pack" [])).
Proof.
  destruct (upstream_faults_absorbed (new_TelegramAPI "t" dead_client) [])
    as [Hset [_ [Hfile _]]].
  destruct (upstream_faults_absorbed sample_api []) as [_ [_ [_ [_ Hs]]]].
  split; [|split].
  - destruct (Hset "demo_pack") as [v [E Hv]]. rewrite E.
    rewrite Hv; [reflexivity | left; reflexivity].
  - destruct (Hfile (JStr "F1")) as [_ H]. apply H. left. reflexivity.
  - destruct (Hs sample_api_conforming "demo_pack") as [H _]. exact H.
Defined.

(* ################################################################# *)
(** * Further properties of the code                                  *)
(* ################################################################# *)

(* ================================================================= *)
(** ** Identifier normalizer                                          *)
(* ================================================================= *)

Lemma all_chars_append (p : ascii -> bool) (a b : string) :
  all_chars p (a ++ b) = all_chars p a && all_chars p b.
Proof.
  induction a as [|c a IH]; cbn [append all_chars]; [reflexivity|].
  now rewrite IH, andb_assoc.
Qed.

(** A string of name characters holds no link. *)
Lemma name_has_no_link (n : string) :
  all_chars name_char n = true -> ~ has_link n.
Proof.
  intros A [pre [c [post [_ E]]]]. rewrite E in A.
  rewrite all_chars_append, all_chars_append in A.
  apply andb_true_iff in A as [_ A]. apply andb_true_iff in A as [A _].
  discriminate.
Qed.

(** What [extract_pack_name] returns holds no link. *)
Lemma extract_pack_name_fixed (s : string) :
  extract_pack_name (extract_pack_name s) = extract_pack_name s.
Proof.
  rewrite (extract_first_link (extract_pack_name s)).
  assert (H : first_link (extract_pack_name s) = None).
  { apply first_link_none. rewrite extract_first_link.
    destruct (first_link s) as [n|] eqn:F.
    - destruct (first_link_some _ _ F) as [pre [post [_ [N _]]]].
      unfold name_ok in N. apply andb_true_iff in N as [_ A].
      now apply name_has_no_link.
    - now apply first_link_none. }
  now rewrite H.
Qed.

(** X1.  Normalizing twice is normalizing once: what [extract_pack_name]
    returns, a captured name or an input without a link, is returned
    unchanged when it is passed in again. *)
Theorem extract_pack_name_idempotent (s : string) :
  extract_pack_name (extract_pack_name s) = extract_pack_name s.
Proof. apply extract_pack_name_fixed. Qed.

(** X2.  The pack endpoint does the same, request for request, whether it is
    given a sharing link or the name extracted from it. *)
Theorem get_pack_of_extracted_name (telegram_api : option TelegramAPI)
    (url : string) (log : list request) :
  get_pack telegram_api (extract_pack_name url) log
  = get_pack telegram_api url log.
Proof.
  destruct telegram_api as [api|]; [|reflexivity].
  unfold get_pack. now rewrite extract_pack_name_fixed.
Qed.

(* ================================================================= *)
(** ** Item mapper: what a returned item is                           *)
(* ================================================================= *)

Section FieldsBack.

Variable m : list (string * json).
Variable k : string.

Lemma as_str_back (d s : string) :
  as_str (match lookup k m with Some v => v | None => JStr d end) = Return s ->
  s = str_field k d m.
Proof.
  unfold str_field. destruct (lookup k m) as [[]|]; cbn; congruence.
Qed.

Lemma add_str_back (d b s : string) :
  add_str (match lookup k m with Some v => v | None => JStr d end) b = Return s ->
  s = str_field k d m ++ b /\ field_ok is_str k m = true.
Proof.
  unfold str_field, field_ok.
  destruct (lookup k m) as [[]|]; cbn; try discriminate;
    intros H; inversion H; now split.
Qed.

Lemma suffix_back (n : nat) (d s : string) :
  obind (slice_to n (match lookup k m with Some v => v | None => JStr d end))
        py_str = Return s ->
  s = substring 0 n (str_field k d m).
Proof.
  unfold str_field. destruct (lookup k m) as [[]|]; cbn; congruence.
Qed.

Lemma as_opt_str_back (o : option string) :
  as_opt_str (match lookup k m with Some v => v | None => JNull end) = Return o ->
  o = opt_str_field k m.
Proof.
  unfold opt_str_field. destruct (lookup k m) as [[]|]; cbn; congruence.
Qed.

Lemma as_int_back (d z : Z) :
  as_int (match lookup k m with Some v => v | None => JInt d end) = Return z ->
  z = int_field k d m.
Proof.
  unfold int_field. destruct (lookup k m) as [[]|]; cbn; congruence.
Qed.

Lemma as_bool_back (b : bool) :
  as_bool (match lookup k m with Some v => v | None => JBool false end)
  = Return b ->
  b = flag k m /\ field_ok is_bool k m = true.
Proof.
  unfold flag, field_ok.
  destruct (lookup k m) as [[]|]; cbn; try discriminate;
    intros H; inversion H; now split.
Qed.

End FieldsBack.

(** Only an object is mapped. *)
Lemma sticker_to_emoji_data_object (sticker : json) (url : string)
    (item : EmojiData) :
  sticker_to_emoji_data sticker url = Return item ->
  exists m, sticker = JObj m.
Proof. destruct sticker; try discriminate. intros _. now eexists. Qed.

(** Whatever the mapper returns is [item_of] the record. *)
Lemma sticker_to_emoji_data_item_of (m : list (string * json)) (url : string)
    (item : EmojiData) :
  sticker_to_emoji_data (JObj m) url = Return item -> item = item_of m url.
Proof.
  unfold sticker_to_emoji_data. cbn [dict_get obind]. intros H.
  apply obind_return in H as [ft [Eft H]].
  apply obind_return in H as [prefix [Eprefix H]].
  apply add_str_back in Eprefix as [-> Hset].
  destruct (slice_to 8 _) as [unique8| |] eqn:Eslice; try discriminate.
  cbn [obind] in H.
  apply obind_return in H as [suffix [Esuffix H]].
  assert (Hsuffix : suffix = substring 0 8 (str_field "file_unique_id" "" m)).
  { apply suffix_back. now rewrite Eslice. }
  apply obind_return in H as [id_v [Eid H]].
  apply obind_return in H as [emoji_v [Eemoji H]].
  apply as_opt_str_back in Eemoji.
  apply obind_return in H as [width_v [Ew H]]. apply as_int_back in Ew.
  apply obind_return in H as [height_v [Eh H]]. apply as_int_back in Eh.
  apply obind_return in H as [a_v [Ea H]]. apply as_bool_back in Ea as [-> Ha].
  apply obind_return in H as [v_v [Ev H]]. apply as_bool_back in Ev as [-> Hv].
  apply obind_return in H as [set_v [Es H]]. apply as_opt_str_back in Es.
  apply obind_return in H as [r_v [Er H]]. apply as_bool_back in Er as [-> _].
  rewrite (truthy_get _ _ Ha), (truthy_get _ _ Hv) in Eft.
  assert (Hft : ft = format_of (flag "is_animated" m) (flag "is_video" m)).
  { unfold format_of. destruct (flag "is_animated" m); cbn in Eft;
      [now inversion Eft|]. destruct (flag "is_video" m); now inversion Eft. }
  assert (Hidv : id_v = id (item_of m url)).
  { cbn [id item_of]. destruct (lookup "custom_emoji_id" m) as [v|].
    - destruct v; cbn in Eid; congruence.
    - now apply as_str_back in Eid. }
  inversion H; subst. unfold item_of. cbn [id]. now rewrite append_assoc.
Qed.

(** The item invariant, for whatever the mapper returns. *)
Lemma sticker_to_emoji_data_invariant (sticker : json) (url : string)
    (item : EmojiData) :
  sticker_to_emoji_data sticker url = Return item -> item_invariant item.
Proof.
  intros H. destruct (sticker_to_emoji_data_object _ _ _ H) as [m ->].
  apply sticker_to_emoji_data_item_of in H. subst item. split; reflexivity.
Qed.

Lemma length_substring_le (n : nat) (s : string) :
  (String.length (substring 0 n s) <= n)%nat.
Proof.
  revert s; induction n as [|n IH]; intros [|c s]; cbn; try lia.
  specialize (IH s). lia.
Qed.

(** X5.  Short names are not identifiers.  For records of the documented
    shape (the unique file identifier and the pack name are strings where
    they are there), the short name is at most 9 characters longer than
    the pack name, and two records of one pack whose unique file
    identifiers agree on their first 8 characters get the same short
    name. *)
Theorem short_name_collides (m1 m2 : list (string * json)) (url1 url2 : string)
    (item1 item2 : EmojiData) :
  sticker_ok (JObj m1) = true ->
  sticker_ok (JObj m2) = true ->
  sticker_to_emoji_data (JObj m1) url1 = Return item1 ->
  sticker_to_emoji_data (JObj m2) url2 = Return item2 ->
  (String.length (short_name item1)
   <= String.length (str_field "set_name" "emoji" m1) + 9)%nat /\
  (lookup "set_name" m1 = lookup "set_name" m2 ->
   substring 0 8 (str_field "file_unique_id" "" m1)
   = substring 0 8 (str_field "file_unique_id" "" m2) ->
   short_name item1 = short_name item2).
Proof.
  intros _ _ H1 H2.
  apply sticker_to_emoji_data_returns in H1 as [_ [S1 _]].
  apply sticker_to_emoji_data_returns in H2 as [_ [S2 _]].
  split.
  - rewrite S1, !length_append. cbn [String.length].
    pose proof (length_substring_le 8 (str_field "file_unique_id" "" m1)). lia.
  - intros Hset Hu. rewrite S1, S2, Hu. unfold str_field. now rewrite Hset.
Qed.

Lemma short_name_collides_witness :
  short_name
    (item_of [("set_name", JStr "p"); ("file_unique_id", JStr "AgADBQADaaaa");
              ("file_id", JStr "F1")] "u1")
  = short_name
      (item_of [("set_name", JStr "p"); ("file_unique_id", JStr "AgADBQADbbbb");
                ("file_id", JStr "F2")] "u2").
Proof.
  destruct (short_name_collides
              [("set_name", JStr "p"); ("file_unique_id", JStr "AgADBQADaaaa");
               ("file_id", JStr "F1")]
              [("set_name", JStr "p"); ("file_unique_id", JStr "AgADBQADbbbb");
               ("file_id", JStr "F2")] "u1" "u2" _ _
              eq_refl eq_refl eq_refl eq_refl)
    as [_ H].
  apply H; reflexivity.
Defined.

(** X4.  What the mapper does with members that are missing: the identifier is
    the custom emoji id, else the file id, else the empty string; width
    and height are 512; the glyph and the pack name are absent; the flags
    are false and the format is [png]. *)
Theorem sticker_to_emoji_data_defaults (m : list (string * json))
    (url : string) (item : EmojiData) :
  sticker_to_emoji_data (JObj m) url = Return item ->
  (forall c, lookup "custom_emoji_id" m = Some (JStr c) -> id item = c) /\
  (forall f, lookup "custom_emoji_id" m = None ->
             lookup "file_id" m = Some (JStr f) -> id item = f) /\
  (lookup "custom_emoji_id" m = None -> lookup "file_id" m = None ->
   id item = "") /\
  (lookup "width" m = None -> width item = 512%Z) /\
  (lookup "height" m = None -> height item = 512%Z) /\
  (lookup "emoji" m = None -> emoji item = None) /\
  (lookup "set_name" m = None -> set_name item = None) /\
  (lookup "is_animated" m = None -> lookup "is_video" m = None ->
   is_animated item = false /\ is_video item = false /\
   file_type item = "png").
Proof.
  intros H. apply sticker_to_emoji_data_item_of in H. subst item.
  cbn [id width height emoji set_name is_animated is_video file_type item_of].
  unfold str_field, int_field, opt_str_field, flag, format_of.
  repeat split; intros; repeat match goal with
    | E : lookup _ _ = _ |- _ => rewrite E; clear E
    end; reflexivity.
Qed.

Lemma sticker_to_emoji_data_defaults_witness :
  id (item_of [("file_id", JStr "F9")] "u") = "F9" /\
  width (item_of [("file_id", JStr "F9")] "u") = 512%Z.
Proof.
  destruct (sticker_to_emoji_data_defaults [("file_id", JStr "F9")] "u" _
              eq_refl) as [_ [Hid [_ [Hw _]]]].
  split; [apply Hid; reflexivity | apply Hw; reflexivity].
Defined.

(** A [set_name] that is there without being a string, as an explicit
    [null] is, makes the mapper raise; only a missing one is replaced by
    ["emoji"]. *)
Lemma sticker_to_emoji_data_bad_set_name (sticker : json) (url : string) :
  bad_set_name sticker = true ->
  sticker_to_emoji_data sticker url = Raise ShapeError.
Proof.
  destruct sticker as [| | | | |m]; try discriminate. cbn [bad_set_name].
  destruct (lookup "set_name" m) as [v|] eqn:E; [|discriminate]. intros Hv.
  unfold sticker_to_emoji_data. cbn [dict_get obind]. rewrite E.
  assert (Hadd : add_str v "_" = Raise ShapeError)
    by (destruct v; try reflexivity; discriminate).
  rewrite Hadd.
  repeat match goal with
  | |- context [if truthy ?x then _ else _] => destruct (truthy x); cbn [obind]
  end; reflexivity.
Qed.

(* ================================================================= *)
(** ** The requests of the loop                                       *)
(* ================================================================= *)

Section LoopRequests.

Variable api : TelegramAPI.

(** One record, one [getFile] request: sent before the record is mapped,
    and not sent for what is not an object. *)
Lemma process_sticker_log (sticker : json) (log : list request) :
  snd (process_sticker api sticker log)
  = match sticker with
    | JObj _ => (log ++ [file_request api (file_id_of sticker)])%list
    | _ => log
    end.
Proof.
  unfold process_sticker, bind, lift.
  destruct sticker; try reflexivity. cbn [dict_get file_id_of].
  rewrite get_file_eq.
  destruct (reply_ok _); [|reflexivity].
  destruct (reply_file_path _) as [v|]; [|reflexivity].
  destruct (truthy v); [|reflexivity].
  destruct v; reflexivity.
Qed.

Lemma process_sticker_return_log (sticker : json) (log log' : list request)
    (item : EmojiData) :
  process_sticker api sticker log = (Return item, log') ->
  log' = (log ++ [file_request api (file_id_of sticker)])%list.
Proof.
  intros H. pose proof (process_sticker_log sticker log) as L.
  rewrite H in L. cbn [snd] in L. subst log'.
  destruct sticker; try reflexivity; cbn in H; discriminate.
Qed.

Lemma for_each_return_log (records : list json) :
  forall log log' items,
    for_each (process_sticker api) records log = (Return items, log') ->
    log' = (log ++ file_requests api records)%list.
Proof.
  induction records as [|x xs IH]; cbn [for_each file_requests map];
    intros log log' items H.
  - unfold ret in H. inversion H. now rewrite app_nil_r.
  - apply bind_return_inv in H as [y [log1 [E1 H]]].
    apply bind_return_inv in H as [ys [log2 [E2 H]]].
    unfold ret in H. inversion H; subst.
    apply process_sticker_return_log in E1. apply IH in E2. subst.
    now rewrite <- app_assoc.
Qed.

(** The loop stops at the first record that fails: the records before it
    have been resolved, its own file has been asked for, and nothing is
    asked for the records after it. *)
Lemma for_each_stops (good rest : list json) (bad : json) :
  files_conform api ->
  forallb sticker_ok good = true ->
  bad_set_name bad = true ->
  forall log,
    for_each (process_sticker api) (good ++ bad :: rest) log
    = (Raise ShapeError,
       (log ++ file_requests api good
            ++ [file_request api (file_id_of bad)])%list).
Proof.
  intros Hf Hgood Hbad. induction good as [|x xs IH]; intros log.
  - cbn [app for_each file_requests map].
    destruct (get_file_conform api (file_id_of bad) log Hf) as [located E].
    unfold bind at 1. unfold process_sticker.
    destruct bad as [| | | | |m]; try discriminate.
    unfold bind, lift. cbn [dict_get]. cbn [file_id_of] in E. rewrite E.
    now rewrite (sticker_to_emoji_data_bad_set_name _ _ Hbad).
  - cbn [forallb] in Hgood. apply andb_true_iff in Hgood as [Hx Hxs].
    cbn [app for_each file_requests map].
    destruct (process_sticker_ok api x log Hf Hx) as [y [log1 E1]].
    rewrite (bind_eq _ _ _ _ _ E1).
    apply process_sticker_return_log in E1. subst log1.
    unfold bind. rewrite (IH Hxs). cbn [file_requests].
    now rewrite <- !app_assoc.
Qed.

(** A string is not a record: the loop does not get past one. *)
Lemma for_each_string (s : string) (rest : list json) (log log' : list request)
    (items : list EmojiData) :
  for_each (process_sticker api) (JStr s :: rest) log <> (Return items, log').
Proof. cbn. discriminate. Qed.

End LoopRequests.

(** The records [for sticker in ...] runs through, when the loop comes to
    its end, are the sticker records of the pack. *)
Lemma iterated_records (api : TelegramAPI) (m : list (string * json))
    (records : list json) (log log' : list request) (items : list EmojiData) :
  py_iter (match lookup "stickers" m with Some v => v | None => JArr [] end)
  = Return records ->
  for_each (process_sticker api) records log = (Return items, log') ->
  records = stickers_of m.
Proof.
  unfold stickers_of. intros Hiter Hloop.
  destruct (lookup "stickers" m) as [v|]; [|now inversion Hiter].
  destruct v as [| | |s|l|kvs]; cbn in Hiter; try discriminate;
    inversion Hiter; subst records; clear Hiter; try reflexivity.
  - destruct s as [|c s]; [reflexivity|]. cbn [chars] in Hloop.
    now apply for_each_string in Hloop.
  - destruct (nodup string_dec (map fst kvs)) as [|k ks]; [reflexivity|].
    cbn [map] in Hloop. now apply for_each_string in Hloop.
Qed.

(** Everything a returned pack tells about the run that made it. *)
Lemma get_pack_inversion (api : TelegramAPI) (url : string)
    (log log' : list request) (pack : EmojiPack) :
  get_pack (Some api) url log = (Return pack, log') ->
  exists m,
    fst (get_sticker_set api (extract_pack_name url) log) = Return (JObj m) /\
    truthy (JObj m) = true /\
    Forall2 (maps_to api) (stickers_of m) (stickers pack) /\
    log' = (log ++ sticker_set_request api (extract_pack_name url)
                :: file_requests api (stickers_of m))%list /\
    name pack = str_field "name" (extract_pack_name url) m /\
    title pack = str_field "title" (extract_pack_name url) m /\
    sticker_type pack = str_field "sticker_type" "custom_emoji" m /\
    thumbnail pack = match lookup "thumbnail" m with
                     | Some (JObj t) => opt_str_field "file_id" t
                     | _ => None
                     end.
Proof.
  intros H. unfold get_pack in H.
  apply bind_return_inv in H as [v [log1 [E H]]].
  destruct (truthy v) eqn:T; cbn [negb] in H; [|unfold raise in H; discriminate].
  apply bind_lift_inv in H as [listed [E1 H]].
  destruct v as [| | | | |m]; try discriminate. cbn [dict_get] in E1.
  inversion E1; subst listed; clear E1.
  apply bind_lift_inv in H as [records [E2 H]].
  apply bind_return_inv in H as [items [log2 [E3 H]]].
  pose proof (iterated_records _ _ _ _ _ _ E2 E3) as ->.
  apply bind_lift_inv in H as [name_arg [E4 H]].
  apply bind_lift_inv in H as [title_arg [E5 H]].
  apply bind_lift_inv in H as [type_arg [E6 H]].
  apply bind_lift_inv in H as [thumb [E7 H]].
  apply bind_lift_inv in H as [thumbnail_arg [E8 H]].
  apply bind_lift_inv in H as [name_v [E9 H]].
  apply bind_lift_inv in H as [title_v [E10 H]].
  apply bind_lift_inv in H as [type_v [E11 H]].
  apply bind_lift_inv in H as [thumbnail_v [E12 H]].
  cbn [dict_get] in E4, E5, E6, E7.
  inversion E4; subst name_arg. inversion E5; subst title_arg.
  inversion E6; subst type_arg. inversion E7; subst thumb.
  apply as_str_back in E9, E10, E11.
  unfold ret in H. inversion H; subst pack log'. clear H.
  exists m. cbn [name title sticker_type stickers thumbnail].
  pose proof (for_each_return_log _ _ _ _ _ E3) as Hlog.
  pose proof (for_each_returns _ _ _ _ _ E3) as Hitems.
  rewrite get_sticker_set_eq in E. inversion E as [[Hv Hlog1]].
  rewrite get_sticker_set_eq. cbn [fst]. rewrite Hv.
  repeat split; try assumption.
  - rewrite Hlog, <- Hlog1, <- app_assoc. reflexivity.
  - destruct (lookup "thumbnail" m) as [[| | | | |t]|]; cbn in E8;
      try discriminate.
    + inversion E8; subst thumbnail_arg. now apply as_opt_str_back in E12.
    + inversion E8; subst thumbnail_arg. cbn in E12. now inversion E12.
Qed.

Lemma scripted_api_files (result : json) : files_conform (scripted_api result).
Proof. intros log file_id. reflexivity. Qed.

(* ================================================================= *)
(** ** What a returned pack tells                                     *)
(* ================================================================= *)

(** X7.  Whenever [get_pack] returns, with no assumption on the upstream: the
    upstream gave a record, the items are the mappings of its sticker
    records, one for one and in order, and the requests sent are the one
    [getStickerSet] and then one [getFile] per sticker record, in the
    order of the records, one after the other and nothing else. *)
Theorem get_pack_requests (api : TelegramAPI) (url : string)
    (log log' : list request) (pack : EmojiPack) :
  get_pack (Some api) url log = (Return pack, log') ->
  exists m,
    fst (get_sticker_set api (extract_pack_name url) log) = Return (JObj m) /\
    Forall2 (maps_to api) (stickers_of m) (stickers pack) /\
    log' = (log ++ sticker_set_request api (extract_pack_name url)
                :: file_requests api (stickers_of m))%list /\
    List.length log'
    = (List.length log + 1 + List.length (stickers pack))%nat.
Proof.
  intros H. apply get_pack_inversion in H as [m [E [_ [F [L _]]]]].
  exists m. repeat split; try assumption.
  rewrite L, length_app. cbn [List.length]. unfold file_requests.
  rewrite length_map, (Forall2_length F). lia.
Qed.

Lemma get_pack_requests_witness :
  exists m,
    fst (get_sticker_set sample_api
           (extract_pack_name "https://t.me/addemoji/demo_pack") [])
    = Return (JObj m) /\
    List.length (stickers_of m) = 2%nat.
Proof.
  destruct (get_pack_requests sample_api "https://t.me/addemoji/demo_pack"
              [] _ _ eq_refl) as [m [E [F _]]].
  exists m. split; [exact E|]. now rewrite (Forall2_length F).
Defined.

(** X8.  The fields of a returned pack.  Name and title each fall back to the
    name that was asked for (the title does not fall back to the name of
    the record), the kind falls back to [custom_emoji], and the thumbnail
    is the file identifier of the record's thumbnail, not a URL. *)
Theorem get_pack_fallbacks (api : TelegramAPI) (url : string)
    (log log' : list request) (pack : EmojiPack) :
  get_pack (Some api) url log = (Return pack, log') ->
  exists m,
    fst (get_sticker_set api (extract_pack_name url) log) = Return (JObj m) /\
    (lookup "name" m = None -> name pack = extract_pack_name url) /\
    (lookup "title" m = None -> title pack = extract_pack_name url) /\
    (forall n t, lookup "name" m = Some (JStr n) ->
                 lookup "title" m = Some (JStr t) ->
                 name pack = n /\ title pack = t) /\
    (lookup "sticker_type" m = None -> sticker_type pack = "custom_emoji") /\
    (lookup "thumbnail" m = None -> thumbnail pack = None) /\
    (forall t f, lookup "thumbnail" m = Some (JObj t) ->
                 lookup "file_id" t = Some (JStr f) ->
                 thumbnail pack = Some f).
Proof.
  intros H.
  apply get_pack_inversion in H as [m [E [_ [_ [_ [N [T [K Th]]]]]]]].
  exists m. split; [exact E|]. rewrite N, T, K, Th.
  unfold str_field, opt_str_field.
  repeat split; intros; repeat match goal with
    | X : lookup _ _ = _ |- _ => rewrite X; clear X
    end; reflexivity.
Qed.

Lemma get_pack_fallbacks_witness :
  exists pack log',
    get_pack (Some (scripted_api (JObj pack_with_name_only)))
      "t.me/addemoji/asked_for" [] = (Return pack, log') /\
    title pack = "asked_for".
Proof.
  do 2 eexists. split; [reflexivity|].
  destruct (get_pack_fallbacks (scripted_api (JObj pack_with_name_only))
              "t.me/addemoji/asked_for" [] _ _ eq_refl)
    as [m [E [_ [T _]]]].
  cbn in E. inversion E; subst m. apply T. reflexivity.
Defined.

(** [get_manifest], likewise. *)
Lemma get_manifest_inversion (api : TelegramAPI) (pack_id : string)
    (log log' : list request) (pack : EmojiPack) :
  get_manifest (Some api) pack_id log = (Return pack, log') ->
  exists m,
    fst (get_sticker_set api pack_id log) = Return (JObj m) /\
    Forall2 (maps_to api) (stickers_of m) (stickers pack) /\
    log' = (log ++ sticker_set_request api pack_id
                :: file_requests api (stickers_of m))%list.
Proof.
  intros H. unfold get_manifest in H.
  apply bind_return_inv in H as [v [log1 [E H]]].
  destruct (truthy v) eqn:T; cbn [negb] in H; [|unfold raise in H; discriminate].
  apply bind_lift_inv in H as [listed [E1 H]].
  destruct v as [| | | | |m]; try discriminate. cbn [dict_get] in E1.
  inversion E1; subst listed; clear E1.
  apply bind_lift_inv in H as [records [E2 H]].
  apply bind_return_inv in H as [items [log2 [E3 H]]].
  pose proof (iterated_records _ _ _ _ _ _ E2 E3) as ->.
  apply bind_lift_inv in H as [name_arg [E4 H]].
  apply bind_lift_inv in H as [title_arg [E5 H]].
  apply bind_lift_inv in H as [type_arg [E6 H]].
  apply bind_lift_inv in H as [name_v [E9 H]].
  apply bind_lift_inv in H as [title_v [E10 H]].
  apply bind_lift_inv in H as [type_v [E11 H]].
  unfold ret in H. inversion H; subst pack log'. clear H.
  exists m. cbn [stickers].
  pose proof (for_each_return_log _ _ _ _ _ E3) as Hlog.
  pose proof (for_each_returns _ _ _ _ _ E3) as Hitems.
  rewrite get_sticker_set_eq in E. inversion E as [[Hv Hlog1]].
  rewrite get_sticker_set_eq. cbn [fst]. rewrite Hv.
  repeat split; try assumption.
  rewrite Hlog, <- Hlog1, <- app_assoc. reflexivity.
Qed.

(** [get_emoji], likewise: the batch was a list, the item stands for its
    first record, and two requests were sent. *)
Lemma get_emoji_inversion (api : TelegramAPI) (emoji_id : string)
    (log log' : list request) (item : EmojiData) :
  get_emoji (Some api) emoji_id log = (Return item, log') ->
  exists first rest,
    fst (get_custom_emoji_stickers api [emoji_id] log)
    = Return (JArr (first :: rest)) /\
    maps_to api first item /\
    log' = (log ++ [custom_emoji_request api [emoji_id];
                    file_request api (file_id_of first)])%list.
Proof.
  intros H. unfold get_emoji in H.
  apply bind_return_inv in H as [v [log1 [E H]]].
  destruct (truthy v) eqn:T; cbn [negb] in H; [|unfold raise in H; discriminate].
  apply bind_lift_inv in H as [sticker [E1 H]].
  change (process_sticker api sticker log1 = (Return item, log')) in H.
  assert (Hv : exists rest, v = JArr (sticker :: rest)).
  { destruct v as [| | |s|l|]; try discriminate.
    - destruct s as [|c s]; [discriminate|]. cbn in E1. inversion E1; subst.
      cbn in H. discriminate.
    - destruct l as [|x l]; [discriminate|]. cbn in E1. inversion E1; subst.
      now exists l. }
  destruct Hv as [rest ->]. exists sticker, rest.
  pose proof (process_sticker_return_log _ _ _ _ _ H) as Hlog.
  apply process_sticker_returns in H.
  rewrite E. cbn [fst]. repeat split; try assumption.
  rewrite get_custom_emoji_stickers_eq in E. inversion E as [[Hv Hlog1]].
  rewrite Hlog, <- Hlog1, <- app_assoc. reflexivity.
Qed.

(** What [maps_to] says of the item. *)
Lemma maps_to_invariants (api : TelegramAPI) (sticker : json)
    (item : EmojiData) :
  maps_to api sticker item -> item_invariant item /\ url_invariant api item.
Proof.
  intros [log [located [G [Hmap Hurl]]]]. split.
  - eapply sticker_to_emoji_data_invariant; eassumption.
  - unfold url_invariant. rewrite Hurl. rewrite get_file_eq in G. cbn [fst] in G.
    destruct (reply_ok _); [|inversion G; now left].
    destruct (reply_file_path _) as [v|]; [|inversion G; now left].
    destruct (truthy v); [|inversion G; now left].
    destruct v; try discriminate. inversion G. right. now eexists.
Qed.

(** X3.  The items that the endpoints hand out.  Every item has no
    thumbnail URL, and its URL is either empty or the download URL of
    the Bot API with the bot's token in it: the credential goes out to
    the caller in every resolved URL.  And an item made from a record of
    the documented shape, whose two flags are booleans where they are
    there, keeps the invariant of the data model: its format is [tgs]
    when its own [is_animated] is set, else [webm] when its own
    [is_video] is set, else [png]. *)
Theorem returned_items_invariant (api : TelegramAPI) (ident : string)
    (log : list request) :
  (forall pack log',
      get_pack (Some api) ident log = (Return pack, log') ->
      exists m,
        fst (get_sticker_set api (extract_pack_name ident) log)
        = Return (JObj m) /\
        Forall2 (fun sticker item =>
                   (sticker_ok sticker = true ->
                    file_type item
                    = format_of (is_animated item) (is_video item)) /\
                   thumbnail_url item = None /\
                   url_invariant api item)
                (stickers_of m) (stickers pack)) /\
  (forall pack log',
      get_manifest (Some api) ident log = (Return pack, log') ->
      exists m,
        fst (get_sticker_set api ident log) = Return (JObj m) /\
        Forall2 (fun sticker item =>
                   (sticker_ok sticker = true ->
                    file_type item
                    = format_of (is_animated item) (is_video item)) /\
                   thumbnail_url item = None /\
                   url_invariant api item)
                (stickers_of m) (stickers pack)) /\
  (forall item log',
      get_emoji (Some api) ident log = (Return item, log') ->
      exists first rest,
        fst (get_custom_emoji_stickers api [ident] log)
        = Return (JArr (first :: rest)) /\
        (sticker_ok first = true ->
         file_type item = format_of (is_animated item) (is_video item)) /\
        thumbnail_url item = None /\
        url_invariant api item).
Proof.
  assert (Hone : forall sticker item,
    maps_to api sticker item ->
    (sticker_ok sticker = true ->
     file_type item = format_of (is_animated item) (is_video item)) /\
    thumbnail_url item = None /\ url_invariant api item).
  { intros sticker item H.
    destruct (maps_to_invariants _ _ _ H) as [[Hf Ht] Hu]. now repeat split. }
  assert (Hall : forall records items,
    Forall2 (maps_to api) records items ->
    Forall2 (fun sticker item =>
               (sticker_ok sticker = true ->
                file_type item = format_of (is_animated item) (is_video item)) /\
               thumbnail_url item = None /\ url_invariant api item)
            records items).
  { intros records items F. induction F; constructor; [|assumption].
    now apply Hone. }
  split; [|split].
  - intros pack log' H. apply get_pack_inversion in H as [m [E [_ [F _]]]].
    exists m. split; [exact E | now apply Hall].
  - intros pack log' H. apply get_manifest_inversion in H as [m [E [F _]]].
    exists m. split; [exact E | now apply Hall].
  - intros item log' H.
    apply get_emoji_inversion in H as [first [rest [E [F _]]]].
    exists first, rest. split; [exact E | now apply Hone].
Qed.

Lemma returned_items_invariant_witness :
  exists pack log' m,
    get_pack (Some sample_api) "demo_pack" [] = (Return pack, log') /\
    Forall2 (fun sticker item =>
               (sticker_ok sticker = true ->
                file_type item = format_of (is_animated item) (is_video item)) /\
               thumbnail_url item = None /\
               url_invariant sample_api item)
            (stickers_of m) (stickers pack).
Proof.
  destruct (returned_items_invariant sample_api "demo_pack" []) as [H _].
  destruct (H _ _ eq_refl) as [m [_ F]].
  do 2 eexists. exists m. split; [reflexivity | exact F].
Defined.

(** X6.  The URL of an item is empty exactly when its file was not found: a
    download URL is never empty. *)
Theorem empty_url_iff_not_found (api : TelegramAPI) (sticker : json)
    (log log' : list request) (item : EmojiData) :
  process_sticker api sticker log = (Return item, log') ->
  (file_url item = ""
   <-> fst (get_file api (file_id_of sticker) log) = Return None).
Proof.
  intros H. unfold process_sticker in H.
  apply bind_lift_inv in H as [fid [E1 H]].
  assert (fid = file_id_of sticker) as ->.
  { destruct sticker; cbn in E1; try discriminate. now inversion E1. }
  apply bind_return_inv in H as [located [log1 [E2 H]]].
  unfold lift in H. injection H as Hitem _.
  apply sticker_to_emoji_data_url in Hitem. rewrite Hitem, E2. cbn [fst].
  rewrite get_file_eq in E2. injection E2 as E2 _.
  destruct located as [u|]; cbn [or_empty].
  - split; [|discriminate]. intros ->. exfalso.
    destruct (reply_ok _); [|discriminate].
    destruct (reply_file_path _) as [v|]; [|discriminate].
    destruct (truthy v); [|discriminate].
    destruct v; discriminate.
  - split; reflexivity.
Qed.

Lemma empty_url_iff_not_found_witness :
  fst (get_file sample_api (JStr "F2") []) = Return None.
Proof.
  destruct (empty_url_iff_not_found sample_api
              (JObj [("file_id", JStr "F2")]) [] _ _ eq_refl) as [H _].
  apply H. reflexivity.
Defined.

(* ================================================================= *)
(** ** Requests and failures of the endpoints                         *)
(* ================================================================= *)

(** X9.  The requests before an [HTTPException].  Whenever one of the
    three endpoints raises an [HTTPException], it is either the 503 of a
    missing client, raised before any request is sent, or the 404 of a
    lookup that found nothing, raised after exactly that one request: no
    [getFile] request goes out for a pack or an emoji that was not
    found.  (An unhandled error, which the framework answers with a 500,
    is not an [HTTPException] and comes after as many requests as the
    run had made.) *)
Theorem http_error_after_one_request (telegram_api : option TelegramAPI)
    (ident : string) (log log' : list request) (status : Z) (detail : string) :
  (get_pack telegram_api ident log = (Raise (HTTPException status detail), log') ->
   (telegram_api = None /\ status = 503%Z /\ log' = log) \/
   (exists api,
       telegram_api = Some api /\ status = 404%Z /\
       log' = (log ++ [sticker_set_request api (extract_pack_name ident)])%list))
  /\
  (get_manifest telegram_api ident log
   = (Raise (HTTPException status detail), log') ->
   (telegram_api = None /\ status = 503%Z /\ log' = log) \/
   (exists api,
       telegram_api = Some api /\ status = 404%Z /\
       log' = (log ++ [sticker_set_request api ident])%list))
  /\
  (get_emoji telegram_api ident log = (Raise (HTTPException status detail), log') ->
   (telegram_api = None /\ status = 503%Z /\ log' = log) \/
   (exists api,
       telegram_api = Some api /\ status = 404%Z /\
       log' = (log ++ [custom_emoji_request api [ident]])%list)).
Proof.
  destruct telegram_api as [api|].
  - split; [|split]; intros H; right; exists api.
    + apply get_pack_raise_cases in H
        as [v [log1 [E [[_ [-> X]] | [_ X]]]]]; [|discriminate].
      rewrite get_sticker_set_eq in E. inversion E. inversion X. now repeat split.
    + apply get_manifest_raise_cases in H
        as [v [log1 [E [[_ [-> X]] | [_ X]]]]]; [|discriminate].
      rewrite get_sticker_set_eq in E. inversion E. inversion X. now repeat split.
    + apply get_emoji_raise_cases in H
        as [v [log1 [E [[_ [-> X]] | [_ X]]]]]; [|discriminate].
      rewrite get_custom_emoji_stickers_eq in E. inversion E. inversion X.
      now repeat split.
  - split; [|split]; intros H; left; cbn in H; inversion H; now repeat split.
Qed.

Lemma http_error_after_one_request_witness :
  snd (get_pack (Some (new_TelegramAPI "t" dead_client)) "unknownpack" [])
  = [sticker_set_request (new_TelegramAPI "t" dead_client) "unknownpack"] /\
  snd (get_emoji None "12345" []) = [].
Proof.
  split.
  - destruct (http_error_after_one_request
                (Some (new_TelegramAPI "t" dead_client)) "unknownpack" []
                (snd (get_pack (Some (new_TelegramAPI "t" dead_client))
                        "unknownpack" []))
                404 "Pack not found: unknownpack") as [H _].
    destruct (H eq_refl) as [[X _] | [api [E [_ L]]]]; [discriminate|].
    inversion E; subst api. exact L.
  - destruct (http_error_after_one_request None "12345" []
                (snd (get_emoji None "12345" []))
                503 "Telegram API not configured") as [_ [_ H]].
    destruct (H eq_refl) as [[_ [_ L]] | [api [E _]]]; [exact L | discriminate].
Defined.

(** X10.  [get_emoji] looks at the first record of the batch only: whenever it
    returns, the batch was a non-empty list, the item is the mapping of
    its first record, whatever the other records are, and exactly two
    requests were sent, the batch lookup and the [getFile] of that
    record. *)
Theorem get_emoji_first_record (api : TelegramAPI) (emoji_id : string)
    (log log' : list request) (item : EmojiData) :
  get_emoji (Some api) emoji_id log = (Return item, log') ->
  exists first rest,
    fst (get_custom_emoji_stickers api [emoji_id] log)
    = Return (JArr (first :: rest)) /\
    maps_to api first item /\
    log' = (log ++ [custom_emoji_request api [emoji_id];
                    file_request api (file_id_of first)])%list.
Proof. apply get_emoji_inversion. Qed.

Lemma get_emoji_first_record_witness :
  exists first rest,
    fst (get_custom_emoji_stickers sample_api ["77"] [])
    = Return (JArr (first :: rest)) /\
    snd (get_emoji (Some sample_api) "77" [])
    = [custom_emoji_request sample_api ["77"];
       file_request sample_api (file_id_of first)].
Proof.
  destruct (get_emoji_first_record sample_api "77" [] _ _ eq_refl)
    as [first [rest [E [_ L]]]].
  exists first, rest. split; [exact E|]. cbn [app] in L. rewrite <- L.
  reflexivity.
Defined.

Lemma bind_raise_eq {A B : Type} (m : M A) (f : A -> M B)
    (log log1 : list request) (e : exn) :
  m log = (Raise e, log1) -> bind m f log = (Raise e, log1).
Proof. unfold bind. now intros ->. Qed.

(** X11.  One record that cannot be mapped fails the whole pack.  With a
    [set_name] that is [null] in some record, [get_pack] and
    [get_manifest] raise (HTTP 500) although the records before it were
    resolved; the requests for those and for the failing record have been
    sent, none for the records after it. *)
Theorem bad_record_fails_pack (api : TelegramAPI) (url : string)
    (log log1 : list request) (m : list (string * json))
    (good rest : list json) (bad : json) :
  get_sticker_set api (extract_pack_name url) log = (Return (JObj m), log1) ->
  truthy (JObj m) = true ->
  lookup "stickers" m = Some (JArr (good ++ bad :: rest)) ->
  files_conform api ->
  forallb sticker_ok good = true ->
  bad_set_name bad = true ->
  get_pack (Some api) url log
  = (Raise ShapeError,
     (log1 ++ file_requests api good ++ [file_request api (file_id_of bad)])%list)
  /\
  get_manifest (Some api) (extract_pack_name url) log
  = (Raise ShapeError,
     (log1 ++ file_requests api good ++ [file_request api (file_id_of bad)])%list).
Proof.
  intros E T Hst Hf Hgood Hbad.
  unfold get_pack, get_manifest.
  rewrite !(bind_eq _ _ _ _ _ E), T. cbn [negb dict_get]. rewrite Hst.
  rewrite !(bind_lift_eq _ _ _ _ eq_refl); cbv beta. cbn [py_iter].
  rewrite !(bind_lift_eq _ _ _ _ eq_refl); cbv beta.
  rewrite !(bind_raise_eq _ _ _ _ _
             (for_each_stops api good rest bad Hf Hgood Hbad log1)).
  split; reflexivity.
Qed.

Lemma bad_record_fails_pack_witness :
  fst (get_pack (Some (scripted_api (JObj pack_with_null_set_name)))
         "demo_pack" [])
  = Raise ShapeError /\
  List.length
    (snd (get_pack (Some (scripted_api (JObj pack_with_null_set_name)))
            "demo_pack" []))
  = 3%nat.
Proof.
  destruct (bad_record_fails_pack
              (scripted_api (JObj pack_with_null_set_name)) "demo_pack" []
              _ pack_with_null_set_name
              [JObj [("file_id", JStr "F1"); ("file_unique_id", JStr "U1")]]
              [JObj [("file_id", JStr "F3")]]
              (JObj [("file_id", JStr "F2"); ("set_name", JNull)])
              eq_refl eq_refl eq_refl
              (scripted_api_files _) eq_refl eq_refl) as [H _].
  rewrite H. split; reflexivity.
Defined.

(** X12.  The [stickers] member of the record.  When it is [null] (or a number
    or a boolean) the loop cannot run and both endpoints raise after
    their one request: the default of [get] stands in for a missing
    member only.  When it is missing or empty, a returned pack has no
    items and one request was sent. *)
Theorem stickers_member_edge (api : TelegramAPI) (url : string)
    (log log1 : list request) (m : list (string * json)) :
  get_sticker_set api (extract_pack_name url) log = (Return (JObj m), log1) ->
  truthy (JObj m) = true ->
  (forall v, lookup "stickers" m = Some v -> not_iterable v = true ->
     get_pack (Some api) url log = (Raise ShapeError, log1) /\
     get_manifest (Some api) (extract_pack_name url) log
     = (Raise ShapeError, log1)) /\
  (stickers_of m = [] ->
   forall pack log',
     get_pack (Some api) url log = (Return pack, log') ->
     stickers pack = [] /\
     log' = (log ++ [sticker_set_request api (extract_pack_name url)])%list).
Proof.
  intros E T. split.
  - intros v Hv Hn. unfold get_pack, get_manifest.
    rewrite !(bind_eq _ _ _ _ _ E), T. cbn [negb dict_get]. rewrite Hv.
    rewrite !(bind_lift_eq _ _ _ _ eq_refl); cbv beta.
    destruct v; try discriminate; split; reflexivity.
  - intros Hempty pack log' H.
    apply get_pack_inversion in H as [m' [E' [_ [F [L _]]]]].
    rewrite E in E'. cbn [fst] in E'. inversion E'; subst m'.
    rewrite Hempty in F, L. inversion F. split; [reflexivity | exact L].
Qed.

Lemma stickers_member_edge_witness :
  get_pack (Some (scripted_api (JObj pack_with_null_stickers))) "demo_pack" []
  = (Raise ShapeError,
     [sticker_set_request (scripted_api (JObj pack_with_null_stickers))
        "demo_pack"]).
Proof.
  destruct (stickers_member_edge
              (scripted_api (JObj pack_with_null_stickers)) "demo_pack" []
              _ pack_with_null_stickers eq_refl eq_refl) as [H _].
  destruct (H JNull eq_refl eq_refl) as [Hp _]. exact Hp.
Defined.

(** X13.  A third difference between the two pack endpoints.  When the
    [thumbnail] member of the record is there but is not an object, as
    an explicit [null] is, [get_manifest] returns the pack while
    [get_pack] raises (HTTP 500), and it does so only after every file
    of the pack has been asked for. *)
Theorem null_thumbnail_pack_vs_manifest (api : TelegramAPI) (url : string)
    (log log1 : list request) (m : list (string * json)) (v : json) :
  get_sticker_set api (extract_pack_name url) log = (Return (JObj m), log1) ->
  truthy (JObj m) = true ->
  manifest_ok (JObj m) = true ->
  files_conform api ->
  lookup "thumbnail" m = Some v ->
  is_obj v = false ->
  (exists pack,
      get_manifest (Some api) (extract_pack_name url) log
      = (Return pack, (log1 ++ file_requests api (stickers_of m))%list)) /\
  get_pack (Some api) url log
  = (Raise ShapeError, (log1 ++ file_requests api (stickers_of m))%list).
Proof.
  intros E T Hok Hf Hthumb Hv. cbn [manifest_ok] in Hok.
  rewrite !andb_true_iff in Hok. destruct Hok as [[[Hst Hname] Htitle] Htype].
  assert (Hall : forallb sticker_ok (stickers_of m) = true).
  { unfold stickers_of. destruct (lookup "stickers" m) as [[]|];
      try discriminate; [exact Hst | reflexivity]. }
  destruct (for_each_ok api _ Hf Hall log1) as [items [log2 Eloop]].
  pose proof (for_each_return_log _ _ _ _ _ Eloop) as Hlog. subst log2.
  assert (Hiter : py_iter (match lookup "stickers" m with
                           | Some v => v | None => JArr [] end)
                  = Return (stickers_of m)).
  { unfold stickers_of. destruct (lookup "stickers" m) as [[]|];
      try discriminate; reflexivity. }
  split.
  - eexists. unfold get_manifest.
    rewrite (bind_eq _ _ _ _ _ E), T. cbn [negb dict_get].
    rewrite (bind_lift_eq _ _ _ _ eq_refl); cbv beta.
    rewrite (bind_lift_eq _ _ _ _ Hiter); cbv beta.
    rewrite (bind_eq _ _ _ _ _ Eloop); cbv beta.
    do 3 (rewrite (bind_lift_eq _ _ _ _ eq_refl); cbv beta).
    rewrite (bind_lift_eq _ _ _ _ (as_str_get _ _ _ Hname)); cbv beta.
    rewrite (bind_lift_eq _ _ _ _ (as_str_get _ _ _ Htitle)); cbv beta.
    rewrite (bind_lift_eq _ _ _ _ (as_str_get _ _ _ Htype)); cbv beta.
    reflexivity.
  - unfold get_pack.
    rewrite (bind_eq _ _ _ _ _ E), T. cbn [negb dict_get].
    rewrite (bind_lift_eq _ _ _ _ eq_refl); cbv beta.
    rewrite (bind_lift_eq _ _ _ _ Hiter); cbv beta.
    rewrite (bind_eq _ _ _ _ _ Eloop); cbv beta.
    do 3 (rewrite (bind_lift_eq _ _ _ _ eq_refl); cbv beta).
    rewrite Hthumb.
    rewrite (bind_lift_eq _ _ _ _ eq_refl); cbv beta.
    destruct v; try discriminate; reflexivity.
Qed.

Lemma null_thumbnail_pack_vs_manifest_witness :
  fst (get_pack (Some (scripted_api (JObj pack_with_null_thumbnail)))
         "demo_pack" [])
  = Raise ShapeError /\
  exists pack log',
    get_manifest (Some (scripted_api (JObj pack_with_null_thumbnail)))
      "demo_pack" [] = (Return pack, log').
Proof.
  destruct (null_thumbnail_pack_vs_manifest
              (scripted_api (JObj pack_with_null_thumbnail)) "demo_pack" []
              _ pack_with_null_thumbnail JNull eq_refl eq_refl eq_refl
              (scripted_api_files _) eq_refl eq_refl) as [[pack Hm] Hp].
  split; [now rewrite Hp | now exists pack; eexists; exact Hm].
Defined.

(* ================================================================= *)
(** ** Status endpoints                                               *)
(* ================================================================= *)

(** X14.  [/health] and [/] tell whether a token was configured, and they tell
    it truly: they report no client exactly when the resolve endpoints
    answer 503. *)
Theorem health_reports_configuration (BOT_TOKEN : string)
    (transport : AsyncClient) (ident : string) (log : list request) :
  let telegram_api := lifespan BOT_TOKEN transport in
  lookup "telegram_api" (match health telegram_api with
                         | JObj members => members | _ => [] end)
  = Some (JBool (negb (BOT_TOKEN =? ""))) /\
  lookup "telegram_connected" (match root telegram_api with
                               | JObj members => members | _ => [] end)
  = Some (JBool (negb (BOT_TOKEN =? ""))) /\
  (BOT_TOKEN = "" <->
   fst (get_pack telegram_api ident log) = Raise not_configured) /\
  (BOT_TOKEN = "" <->
   fst (get_emoji telegram_api ident log) = Raise not_configured) /\
  (BOT_TOKEN = "" <->
   fst (get_manifest telegram_api ident log) = Raise not_configured).
Proof.
  cbv zeta. unfold lifespan.
  destruct (BOT_TOKEN =? "") eqn:B; cbn [negb].
  - apply String.eqb_eq in B. subst.
    repeat split; reflexivity.
  - apply String.eqb_neq in B.
    split; [reflexivity|]. split; [reflexivity|].
    split; [|split]; (split; [intros X; contradiction|]); intros H; exfalso.
    + destruct (get_pack _ ident log) as [o log'] eqn:G. cbn [fst] in H.
      subst o. apply get_pack_raise_cases in G
        as [v [l1 [_ [[_ [_ X]] | [_ X]]]]]; discriminate.
    + destruct (get_emoji _ ident log) as [o log'] eqn:G. cbn [fst] in H.
      subst o. apply get_emoji_raise_cases in G
        as [v [l1 [_ [[_ [_ X]] | [_ X]]]]]; discriminate.
    + destruct (get_manifest _ ident log) as [o log'] eqn:G. cbn [fst] in H.
      subst o. apply get_manifest_raise_cases in G
        as [v [l1 [_ [[_ [_ X]] | [_ X]]]]]; discriminate.
Qed.

Lemma health_reports_configuration_witness :
  fst (get_pack (lifespan "" dead_client) "demo_pack" []) = Raise not_configured.
Proof.
  destruct (health_reports_configuration "" dead_client "demo_pack" [])
    as [_ [_ [[H _] _]]].
  apply H. reflexivity.
Defined.

(* ================================================================= *)
(** ** Which requests are ever sent                                   *)
(* ================================================================= *)

Section Sending.

Context {A B : Type}.
Variable P : request -> Prop.

Lemma sends_ret (a : A) : sends P (ret a).
Proof. intros log. exists []. cbn. now rewrite app_nil_r. Qed.

Lemma sends_raise (e : exn) : sends P (@raise A e).
Proof. intros log. exists []. cbn. now rewrite app_nil_r. Qed.

Lemma sends_lift (o : outcome A) : sends P (lift o).
Proof. intros log. exists []. cbn. now rewrite app_nil_r. Qed.

Lemma sends_bind (m : M A) (f : A -> M B) :
  sends P m -> (forall a, sends P (f a)) -> sends P (bind m f).
Proof.
  intros Hm Hf log. unfold bind. destruct (Hm log) as [more [E F]].
  destruct (m log) as [[a|e|] log1]; cbn [snd] in *; subst log1.
  - destruct (Hf a (log ++ more)%list) as [more' [E' F']].
    exists (more ++ more')%list. rewrite E', app_assoc. split; [reflexivity|].
    apply Forall_app. now split.
  - now exists more.
  - now exists more.
Qed.

End Sending.

Lemma sends_one {A : Type} (P : request -> Prop) (m : M A) (req : request) :
  (forall log, snd (m log) = (log ++ [req])%list) -> P req -> sends P m.
Proof.
  intros H Hp log. exists [req]. split; [apply H | now constructor].
Qed.

Lemma get_file_sends (api : TelegramAPI) (file_id : json) :
  sends (bot_method api) (get_file api file_id).
Proof.
  apply sends_one with (req := file_request api file_id).
  - intros log. now rewrite get_file_eq.
  - right. right. reflexivity.
Qed.

Lemma get_sticker_set_sends (api : TelegramAPI) (name : string) :
  sends (bot_method api) (get_sticker_set api name).
Proof.
  apply sends_one with (req := sticker_set_request api name).
  - intros log. now rewrite get_sticker_set_eq.
  - left. reflexivity.
Qed.

Lemma get_custom_emoji_stickers_sends (api : TelegramAPI) (ids : list string) :
  sends (bot_method api) (get_custom_emoji_stickers api ids).
Proof.
  apply sends_one with (req := custom_emoji_request api ids).
  - intros log. now rewrite get_custom_emoji_stickers_eq.
  - right. left. reflexivity.
Qed.

Lemma for_each_sends (api : TelegramAPI) (records : list json) :
  sends (bot_method api) (for_each (process_sticker api) records).
Proof.
  induction records as [|x xs IH]; cbn [for_each]; [apply sends_ret|].
  apply sends_bind.
  - unfold process_sticker. apply sends_bind; [apply sends_lift | intros fid].
    apply sends_bind; [apply get_file_sends | intros located].
    apply sends_lift.
  - intros y. apply sends_bind; [exact IH | intros ys]. apply sends_ret.
Qed.

Ltac sends_steps :=
  repeat first
    [ apply sends_ret
    | apply sends_raise
    | apply sends_lift
    | apply get_file_sends
    | apply get_sticker_set_sends
    | apply get_custom_emoji_stickers_sends
    | apply for_each_sends
    | apply sends_bind; [|intros ?]
    | match goal with
      | |- sends _ (if ?b then _ else _) => destruct b
      end ].

(** X15.  However a run of an endpoint ends, with a result, an HTTP error or a
    failure, it has left the earlier requests as they were and has added
    only posts to the three methods [getStickerSet],
    [getCustomEmojiStickers] and [getFile] of the bot's own base URL:
    the endpoints call nothing else, and nothing that writes. *)
Theorem endpoints_send_bot_methods (api : TelegramAPI) (ident : string)
    (log : list request) :
  (exists more,
      snd (get_pack (Some api) ident log) = (log ++ more)%list /\
      Forall (bot_method api) more) /\
  (exists more,
      snd (get_emoji (Some api) ident log) = (log ++ more)%list /\
      Forall (bot_method api) more) /\
  (exists more,
      snd (get_manifest (Some api) ident log) = (log ++ more)%list /\
      Forall (bot_method api) more).
Proof.
  split; [|split].
  - assert (S : sends (bot_method api) (get_pack (Some api) ident))
      by (unfold get_pack; sends_steps).
    apply S.
  - assert (S : sends (bot_method api) (get_emoji (Some api) ident))
      by (unfold get_emoji; sends_steps).
    apply S.
  - assert (S : sends (bot_method api) (get_manifest (Some api) ident))
      by (unfold get_manifest; sends_steps).
    apply S.
Qed.

(* ================================================================= *)
(** ** File download                                                  *)
(* ================================================================= *)

Lemma write_chunks_read (path : string) (chunks : list string) :
  forall fs content,
    read_file path fs = Some content ->
    read_file path (write_chunks path chunks fs)
    = Some (content ++ bytes_of chunks).
Proof.
  induction chunks as [|chunk rest IH]; intros fs content H;
    cbn [write_chunks bytes_of fold_right].
  - now rewrite append_nil_r.
  - rewrite H. rewrite (IH _ (content ++ chunk)).
    + now rewrite append_assoc.
    + cbn [read_file]. now rewrite String.eqb_refl.
Qed.

Lemma write_chunks_frame (path other : string) (chunks : list string) :
  other <> path ->
  forall fs, read_file other (write_chunks path chunks fs) = read_file other fs.
Proof.
  intros Hne. induction chunks as [|chunk rest IH]; intros fs;
    cbn [write_chunks]; [reflexivity|].
  rewrite IH. cbn [read_file].
  apply String.eqb_neq in Hne. now rewrite Hne.
Qed.

Lemma head_of_path_no_slash (p : string) :
  no_slash p = true -> head_of_path p = "".
Proof.
  unfold no_slash. induction p as [|c p IH]; cbn [all_chars head_of_path];
    [reflexivity|].
  intros H. apply andb_true_iff in H as [Hc Hp]. rewrite (IH Hp).
  cbn [String.eqb]. apply negb_true_iff in Hc. now rewrite Hc.
Qed.

Lemma dirname_no_slash (p : string) : no_slash p = true -> dirname p = "".
Proof.
  intros H. unfold dirname. now rewrite (head_of_path_no_slash _ H).
Qed.

(** X16.  [download_file] answers [True] only when the body came through
    whole with status 200, and then the file, read at [local_path], holds
    exactly the bytes of the body, one chunk after the other, in place of
    what was there. *)
Theorem download_file_success (self : TelegramAPI)
    (stream : string -> string -> stream_reply) (os : OS)
    (file_url local_path : string) (fs fs' : files) :
  download_file self stream os file_url local_path fs = (true, fs') ->
  exists chunks,
    stream "GET" file_url = Stream 200 chunks true /\
    read_file local_path fs' = Some (bytes_of chunks).
Proof.
  unfold download_file, download_body.
  destruct (stream "GET" file_url) as [|status chunks complete];
    [discriminate|].
  destruct (status =? 200)%Z eqn:S; [|discriminate].
  apply Z.eqb_eq in S. subst status.
  destruct (makedirs os (dirname local_path)); [discriminate|].
  destruct (can_open os local_path); [|discriminate].
  destruct complete; [|discriminate].
  intros H. inversion H; subst fs'. clear H. exists chunks.
  split; [reflexivity|].
  rewrite (write_chunks_read _ _ _ "").
  - reflexivity.
  - cbn [read_file]. now rewrite String.eqb_refl.
Qed.

Lemma download_file_success_witness :
  read_file "assets/pack/e1.webm"
    (snd (download_file sample_api (sample_stream ["RIFF"; "WEBM"] true)
            permissive_os "https://example/f" "assets/pack/e1.webm"
            [("assets/pack/e1.webm", "old")]))
  = Some "RIFFWEBM".
Proof.
  destruct (download_file_success sample_api
              (sample_stream ["RIFF"; "WEBM"] true) permissive_os
              "https://example/f" "assets/pack/e1.webm"
              [("assets/pack/e1.webm", "old")] _ eq_refl)
    as [chunks [E R]].
  inversion E; subst chunks. exact R.
Defined.

(** X17.  How [download_file] fails, always by answering [False].  When the
    stream cannot be opened or the status is not 200, nothing on disk is
    touched.  When [local_path] has no directory part, the call fails
    whatever the server sends, because the directory to create is the
    empty path.  When the body breaks off, the file is left behind with
    the chunks that had come: it is not removed. *)
Theorem download_file_failures (self : TelegramAPI)
    (stream : string -> string -> stream_reply) (os : OS)
    (file_url local_path : string) (fs : files) :
  (stream "GET" file_url = StreamFailed ->
   download_file self stream os file_url local_path fs = (false, fs)) /\
  (forall status chunks complete,
      stream "GET" file_url = Stream status chunks complete ->
      status <> 200%Z ->
      download_file self stream os file_url local_path fs = (false, fs)) /\
  (no_slash local_path = true ->
   download_file self stream os file_url local_path fs = (false, fs)) /\
  (forall chunks,
      stream "GET" file_url = Stream 200 chunks false ->
      makedirs os (dirname local_path) = None ->
      can_open os local_path = true ->
      fst (download_file self stream os file_url local_path fs) = false /\
      read_file local_path
        (snd (download_file self stream os file_url local_path fs))
      = Some (bytes_of chunks)).
Proof.
  unfold download_file, download_body. split; [|split; [|split]].
  - intros ->. reflexivity.
  - intros status chunks complete -> Hne.
    apply Z.eqb_neq in Hne. now rewrite Hne.
  - intros Hp. rewrite (dirname_no_slash _ Hp).
    destruct (stream "GET" file_url) as [|status chunks complete];
      [reflexivity|].
    destruct (status =? 200)%Z; reflexivity.
  - intros chunks -> -> ->. cbn [Z.eqb Pos.eqb fst snd]. split; [reflexivity|].
    rewrite (write_chunks_read _ _ _ "").
    + reflexivity.
    + cbn [read_file]. now rewrite String.eqb_refl.
Qed.

Lemma download_file_failures_witness :
  download_file sample_api (sample_stream ["RIFF"] true) permissive_os
    "https://example/f" "e1.webm" []
  = (false, []) /\
  read_file "assets/e1.webm"
    (snd (download_file sample_api (sample_stream ["RIFF"; "WE"] false)
            permissive_os "https://example/f" "assets/e1.webm" []))
  = Some "RIFFWE".
Proof.
  split.
  - destruct (download_file_failures sample_api (sample_stream ["RIFF"] true)
                permissive_os "https://example/f" "e1.webm" [])
      as [_ [_ [H _]]].
    apply H. reflexivity.
  - destruct (download_file_failures sample_api
                (sample_stream ["RIFF"; "WE"] false)
                permissive_os "https://example/f" "assets/e1.webm" [])
      as [_ [_ [_ H]]].
    destruct (H ["RIFF"; "WE"] eq_refl eq_refl eq_refl) as [_ R]. exact R.
Defined.

(* ================================================================= *)
(** ** Build script                                                   *)
(* ================================================================= *)

Module BuildFacts.

Import Build.

Lemma starts_with_spec (w s : string) :
  starts_with w s = true <-> exists post, s = w ++ post.
Proof.
  unfold starts_with. split.
  - destruct (Re.strip_prefix w s) as [r|] eqn:E; [|discriminate].
    intros _. exists r. now apply strip_prefix_sound.
  - intros [post ->]. now rewrite strip_prefix_complete.
Qed.

Lemma contains_spec (w s : string) :
  contains w s = true <-> exists pre post, s = pre ++ w ++ post.
Proof.
  induction s as [|c s IH].
  - cbn [contains]. rewrite orb_false_r, starts_with_spec. split.
    + intros [post E]. now exists "", post.
    + intros [pre [post E]]. destruct pre; [now exists post | discriminate].
  - cbn [contains]. rewrite orb_true_iff, starts_with_spec, IH. split.
    + intros [[post E] | [pre [post E]]].
      * now exists "", post.
      * exists (String c pre), post. now rewrite E.
    + intros [pre [post E]]. destruct pre as [|d pre].
      * left. now exists post.
      * right. injection E as _ E. now exists pre, post.
Qed.

Lemma substring_whole (s : string) : substring 0 (String.length s) s = s.
Proof. induction s as [|c s IH]; cbn; [reflexivity | now rewrite IH]. Qed.

Lemma substring_skip (pre t : string) (n : nat) :
  substring (String.length pre) n (pre ++ t) = substring 0 n t.
Proof. induction pre as [|c pre IH]; cbn; [reflexivity | exact IH]. Qed.

Lemma substring_split (s : string) :
  forall k, (k <= String.length s)%nat ->
            s = substring 0 k s ++ substring k (String.length s - k) s.
Proof.
  induction s as [|c s IH]; intros k Hk.
  - destruct k; reflexivity.
  - destruct k as [|k].
    + cbn [substring append]. cbn [String.length Nat.sub].
      now rewrite substring_whole.
    + cbn [String.length] in Hk. cbn. f_equal. apply IH. lia.
Qed.

(** [ends_with] is [str.endswith]. *)
Lemma ends_with_spec (suffix s : string) :
  ends_with suffix s = true <-> exists pre, s = pre ++ suffix.
Proof.
  unfold ends_with. rewrite andb_true_iff, Nat.leb_le, String.eqb_eq. split.
  - intros [L E]. exists (substring 0 (String.length s - String.length suffix) s).
    assert (Hk : (String.length s - String.length suffix <= String.length s)%nat)
      by lia.
    pose proof (substring_split s _ Hk) as Hs.
    replace (String.length s - (String.length s - String.length suffix))%nat
      with (String.length suffix) in Hs by lia.
    now rewrite E in Hs.
  - intros [pre ->]. rewrite length_append. split; [lia|].
    replace (String.length pre + String.length suffix - String.length suffix)%nat
      with (String.length pre) by lia.
    now rewrite substring_skip, substring_whole.
Qed.

(** What each pattern of [EXCLUDE] tests. *)
Lemma should_exclude_tests (p : string) :
  should_exclude p =
  (contains "__pycache__" p || (ends_with ".pyc" p || (ends_with ".pyo" p
   || (ends_with ".pyd" p || (contains ".git" p || (contains ".gitignore" p
   || (contains "node_modules" p || (contains ".DS_Store" p
   || (ends_with ".log" p
   || (existsb (String.eqb "dist") (split_sep p)
   || (existsb (String.eqb "build") (split_sep p)
   || (ends_with ".zip" p || false)))))))))))).
Proof. reflexivity. Qed.

Lemma under_dist (rest : string) :
  existsb (String.eqb "dist") (split_sep ("dist/" ++ rest)) = true.
Proof.
  cbn [append split_sep]. cbn [Ascii.eqb Bool.eqb]. cbn [split_sep].
  reflexivity.
Qed.

(** Every path under [dist] is excluded. *)
Lemma should_exclude_under_dist (rest : string) :
  should_exclude ("dist/" ++ rest) = true.
Proof.
  rewrite should_exclude_tests, under_dist. now rewrite !orb_true_r.
Qed.

(** X18.  [should_exclude] decides by three kinds of test: a path component
    that is [dist] or [build]; an ending [.pyc], [.pyo], [.pyd], [.log]
    or [.zip]; or one of [__pycache__], [.git], [node_modules],
    [.DS_Store] anywhere in the path, inside a name too.  The pattern
    [.gitignore] never decides, being covered by [.git]. *)
Theorem should_exclude_spec (p : string) :
  should_exclude p = true <->
  (In "dist" (split_sep p) \/ In "build" (split_sep p)) \/
  (exists pre suffix,
      In suffix [".pyc"; ".pyo"; ".pyd"; ".log"; ".zip"] /\
      p = pre ++ suffix) \/
  (exists pre w post,
      In w ["__pycache__"; ".git"; "node_modules"; ".DS_Store"] /\
      p = pre ++ w ++ post).
Proof.
  assert (Hc : forall c, existsb (String.eqb c) (split_sep p) = true
                         <-> In c (split_sep p)).
  { intros c. rewrite existsb_exists. split.
    - intros [x [Hx E]]. apply String.eqb_eq in E. now subst.
    - intros H. exists c. split; [exact H | apply String.eqb_refl]. }
  rewrite should_exclude_tests. rewrite !orb_true_iff.
  rewrite !contains_spec, !ends_with_spec, !Hc. split.
  - intros [H | [H | [H | [H | [H | [H | [H | [H | [H | [H | [H | [H | H]]]]]]]]]]]].
    + destruct H as [pre [post E]]. right. right.
      exists pre, "__pycache__", post. cbn [In]. tauto.
    + destruct H as [pre E]. right. left. exists pre, ".pyc". cbn [In]. tauto.
    + destruct H as [pre E]. right. left. exists pre, ".pyo". cbn [In]. tauto.
    + destruct H as [pre E]. right. left. exists pre, ".pyd". cbn [In]. tauto.
    + destruct H as [pre [post E]]. right. right.
      exists pre, ".git", post. cbn [In]. tauto.
    + destruct H as [pre [post E]]. right. right.
      exists pre, ".git", ("ignore" ++ post). cbn [In]. split; [tauto|].
      exact E.
    + destruct H as [pre [post E]]. right. right.
      exists pre, "node_modules", post. cbn [In]. tauto.
    + destruct H as [pre [post E]]. right. right.
      exists pre, ".DS_Store", post. cbn [In]. tauto.
    + destruct H as [pre E]. right. left. exists pre, ".log". cbn [In]. tauto.
    + left. now left.
    + left. now right.
    + destruct H as [pre E]. right. left. exists pre, ".zip". cbn [In]. tauto.
    + discriminate.
  - intros [[H | H] | [[pre [suffix [Hin E]]] | [pre [w [post [Hin E]]]]]].
    + tauto.
    + tauto.
    + cbn [In] in Hin.
      destruct Hin as [<- | [<- | [<- | [<- | [<- | []]]]]]; eauto 15.
    + cbn [In] in Hin.
      destruct Hin as [<- | [<- | [<- | [<- | []]]]]; eauto 15.
Qed.

Lemma should_exclude_spec_witness :
  should_exclude "docs/my.github.notes.md" = true.
Proof.
  apply should_exclude_spec. right. right.
  exists "docs/my", ".git", "hub.notes.md". split; [cbn; tauto | reflexivity].
Defined.

(** X19.  [create_zip] walks [dist] and asks [should_exclude] about paths that
    all begin with [dist/], and [dist/] is one of the patterns: whatever
    [dist] holds, no file is written to the archive. *)
Theorem create_zip_archives_nothing (content : list entry) :
  create_zip content = [].
Proof.
  unfold create_zip. cbn [archived].
  assert (Hj : forall n, should_exclude (join "dist" n) = true)
    by (intros n; apply should_exclude_under_dist).
  induction content as [|e rest IH]; [reflexivity|].
  cbn [flat_map]. apply app_eq_nil in IH as [IH1 IH2].
  rewrite IH1, IH2. destruct e as [f|d c]; now rewrite Hj.
Qed.

End BuildFacts.

(* ================================================================= *)
(** ** The pack endpoint, call by call                                *)
(* ================================================================= *)

(** The item of one round of the loop is the mapping of the record and
    of what [get_file] gave at the log of that round. *)
Lemma process_sticker_call (api : TelegramAPI) (sticker : json)
    (log log' : list request) (item : EmojiData) :
  process_sticker api sticker log = (Return item, log') ->
  exists located,
    fst (get_file api (file_id_of sticker) log) = Return located /\
    sticker_to_emoji_data sticker (or_empty located) = Return item /\
    file_url item = or_empty located.
Proof.
  unfold process_sticker. intros H.
  apply bind_lift_inv in H as [fid [E1 H]].
  assert (fid = file_id_of sticker) as ->.
  { destruct sticker; cbn in E1; try discriminate. now inversion E1. }
  apply bind_return_inv in H as [located [log1 [E2 H]]].
  unfold lift in H. injection H as Hitem _.
  exists located. rewrite E2. repeat split; [exact Hitem|].
  now apply sticker_to_emoji_data_url in Hitem.
Qed.

(** The loop, position by position: the item at a position is made from
    the record at that position and from the answer to the call the loop
    made for it, after the calls for the records before it. *)
Lemma for_each_calls (api : TelegramAPI) (records : list json) :
  forall log log' items,
    for_each (process_sticker api) records log = (Return items, log') ->
    forall i sticker,
      nth_error records i = Some sticker ->
      exists item located,
        nth_error items i = Some item /\
        fst (get_file api (file_id_of sticker) (call_log api log records i))
        = Return located /\
        sticker_to_emoji_data sticker (or_empty located) = Return item /\
        file_url item = or_empty located.
Proof.
  induction records as [|x xs IH]; intros log log' items H i sticker Hn.
  - destruct i; discriminate.
  - cbn [for_each] in H.
    apply bind_return_inv in H as [y [log1 [E1 H]]].
    apply bind_return_inv in H as [ys [log2 [E2 H]]].
    unfold ret in H. injection H as <- _.
    destruct i as [|i]; cbn [nth_error] in Hn.
    + injection Hn as <-.
      destruct (process_sticker_call _ _ _ _ _ E1) as [located [G [Hm Hu]]].
      exists y, located. unfold call_log. cbn [firstn file_requests map].
      rewrite app_nil_r. now repeat split.
    + pose proof (process_sticker_return_log _ _ _ _ _ E1) as ->.
      destruct (IH _ _ _ E2 i sticker Hn) as [item [located [Hi [G [Hm Hu]]]]].
      exists item, located. cbn [nth_error]. unfold call_log in *.
      cbn [firstn file_requests map]. fold (file_requests api (firstn i xs)).
      rewrite <- app_assoc in G. cbn [app] in G. now repeat split.
Qed.

(** C1.  When the upstream returns a pack record, [get_pack] returns a
    pack (HTTP 200) with one item per sticker record of the pack, in
    upstream order.  The item at each position is the mapping of the
    record at that position and of the answer to the file-location call
    that the run made for that record, the calls being made one per
    record in the order of the records.  When that call failed
    ([get_file] gave [None]) the item is there all the same, at its
    position, mapped with the empty string for its URL, which is how the
    code writes an absent URL.  So when every file-location call of the
    run fails the pack still comes back, with every item and every URL
    empty. *)
Theorem get_pack_items (api : TelegramAPI) (url : string)
    (log log1 : list request) (m : list (string * json)) :
  get_sticker_set api (extract_pack_name url) log = (Return (JObj m), log1) ->
  truthy (JObj m) = true ->
  pack_ok (JObj m) = true ->
  files_conform api ->
  exists pack,
    get_pack (Some api) url log
    = (Return pack, (log1 ++ file_requests api (stickers_of m))%list) /\
    List.length (stickers pack) = List.length (stickers_of m) /\
    (forall i sticker,
        nth_error (stickers_of m) i = Some sticker ->
        exists item located,
          nth_error (stickers pack) i = Some item /\
          fst (get_file api (file_id_of sticker)
                 (call_log api log1 (stickers_of m) i)) = Return located /\
          sticker_to_emoji_data sticker (or_empty located) = Return item /\
          file_url item = or_empty located) /\
    (forall i sticker item,
        nth_error (stickers_of m) i = Some sticker ->
        nth_error (stickers pack) i = Some item ->
        fst (get_file api (file_id_of sticker)
               (call_log api log1 (stickers_of m) i)) = Return None ->
        sticker_to_emoji_data sticker "" = Return item /\
        file_url item = "") /\
    ((forall i sticker,
         nth_error (stickers_of m) i = Some sticker ->
         fst (get_file api (file_id_of sticker)
                (call_log api log1 (stickers_of m) i)) = Return None) ->
     Forall (fun item => file_url item = "") (stickers pack)).
Proof.
  intros E T Hok Hf.
  destruct (get_pack_ok api url log log1 m E T Hok Hf)
    as [items [log' [Eloop Epack]]].
  pose proof (for_each_return_log _ _ _ _ _ Eloop) as ->.
  pose proof (for_each_calls _ _ _ _ _ Eloop) as Hcalls.
  pose proof (for_each_returns _ _ _ _ _ Eloop) as F.
  eexists. split; [exact Epack|]. cbn [stickers].
  split; [symmetry; eapply Forall2_length; eassumption|].
  split; [exact Hcalls|]. split.
  - intros i sticker item Hn Hi G.
    destruct (Hcalls i sticker Hn) as [item' [located [Hi' [G' [Hm Hu]]]]].
    rewrite Hi in Hi'. injection Hi' as <-.
    rewrite G in G'. injection G' as <-. now split.
  - intros Hfail. apply Forall_forall. intros item Hin.
    apply In_nth_error in Hin as [i Hi].
    assert (Hlt : (i < List.length (stickers_of m))%nat).
    { rewrite (Forall2_length F). apply nth_error_Some. now rewrite Hi. }
    apply nth_error_Some in Hlt.
    destruct (nth_error (stickers_of m) i) as [sticker|] eqn:Hn;
      [|now elim Hlt].
    destruct (Hcalls i sticker Hn) as [item' [located [Hi' [G' [_ Hu]]]]].
    rewrite Hi in Hi'. injection Hi' as <-.
    rewrite (Hfail i sticker Hn) in G'. injection G' as <-. exact Hu.
Qed.

Lemma get_pack_items_witness :
  exists pack item,
    fst (get_pack (Some sample_api) "https://t.me/addemoji/demo_pack" [])
    = Return pack /\
    List.length (stickers pack) = 2%nat /\
    nth_error (stickers pack) 1 = Some item /\
    file_url item = "".
Proof.
  destruct (get_pack_items sample_api "https://t.me/addemoji/demo_pack" []
              [sticker_set_request sample_api "demo_pack"]
              (match sample_pack with JObj m => m | _ => [] end))
    as [pack [E [L [_ [Hfail _]]]]].
  - reflexivity.
  - reflexivity.
  - reflexivity.
  - apply sample_api_conforming.
  - assert (Hitem : exists item, nth_error (stickers pack) 1 = Some item).
    { destruct (stickers pack) as [|a [|b l]]; try discriminate L.
      now exists b. }
    destruct Hitem as [item Hi]. exists pack, item.
    split; [now rewrite E|]. split; [exact L|]. split; [exact Hi|].
    eapply (Hfail 1%nat); [reflexivity | exact Hi | reflexivity].
Defined.
